(** * Sandboxed file and SQLite gateway (src/mcp_Server.py)

    A shallow embedding of the seven tool operations of the server and of
    the helper [_get_safe_path] that confines caller-supplied file names to
    the directory [TARGET_FOLDER].

    Conventions of the embedding.
    - A Python [str] is a Coq [string] holding the UTF-8 bytes of the text
      (a [str] with lone surrogates has no such form and is outside the
      model).  File contents are byte strings of the same type.  String
      literals hold the bytes the source file has.
    - A [pathlib.Path] on a POSIX system is the list of its components
      below the root directory.
    - Calls into the Python runtime and the operating system are the
      methods of the class [Platform]; each tool is written once against
      that interface.  [MemPlatform] implements it over an in-memory file
      system with symbolic links and a SQLite engine taken as a parameter.
    - Python exceptions are values of [exn]; a computation is a state and
      exception monad over the world of the platform.
    - The library calls behave as in CPython 3.11 on a POSIX system. *)

From Stdlib Require Import String Ascii ZArith List Lia Bool.
From stdpp Require Import base option list gmap strings pretty.

Local Open Scope Z_scope.
Local Open Scope stdpp_scope.

(** ** Python string operations *)

Module PyStr.

Definition nl : string := String (Ascii.ascii_of_nat 10) "".
Definition cr : string := String (Ascii.ascii_of_nat 13) "".
Definition slash : ascii := "/"%char.
Definition dot : ascii := "."%char.

(** [s.startswith(prefix)] *)
Fixpoint startswith (s pre : string) {struct pre} : bool :=
  match pre, s with
  | "", _ => true
  | String _ _, "" => false
  | String a pre', String b s' => Ascii.eqb a b && startswith s' pre'
  end.

(** [s.endswith(suffix)], that is [s[len(s)-len(suffix):] == suffix]. *)
Definition endswith (s suf : string) : bool :=
  let n := String.length s in
  let k := String.length suf in
  if (k <=? n)%nat then String.eqb (String.substring (n - k) k s) suf
  else false.

(** [sep in s] for a one-character [sep]. *)
Fixpoint contains (sep : ascii) (s : string) : bool :=
  match s with
  | "" => false
  | String c r => if Ascii.eqb c sep then true else contains sep r
  end.

(** [s[s.rfind(sep) + 1:]]: the text after the last [sep], the whole of
    [s] when [sep] does not occur ([rfind] is then -1). *)
Fixpoint after_last (sep : ascii) (s : string) : string :=
  match s with
  | "" => ""
  | String c r =>
      if contains sep r then after_last sep r
      else if Ascii.eqb c sep then r
      else s
  end.

(** [s.split(sep)] for a one-character [sep]; never the empty list. *)
Fixpoint split (sep : ascii) (s : string) : list string :=
  match s with
  | "" => [""]
  | String c r =>
      if Ascii.eqb c sep then "" :: split sep r
      else match split sep r with
           | h :: t => String c h :: t
           | [] => [String c ""]
           end
  end.

(** [sep.join(parts)] *)
Fixpoint join (sep : string) (parts : list string) : string :=
  match parts with
  | [] => ""
  | [p] => p
  | p :: rest => p +:+ sep +:+ join sep rest
  end.

Definition ascii_lower (c : ascii) : ascii :=
  let n := Ascii.nat_of_ascii c in
  if ((65 <=? n) && (n <=? 90))%nat then Ascii.ascii_of_nat (n + 32) else c.

(** [s.lower()] on the ASCII letters.  The only code point outside ASCII
    whose lower case is an ASCII letter is the Kelvin sign (to "k"), and
    no suffix this program compares with contains a "k". *)
Fixpoint lower (s : string) : string :=
  match s with
  | "" => ""
  | String c r => String (ascii_lower c) (lower r)
  end.

(** [x in xs] for a list of strings. *)
Definition elem (x : string) (xs : list string) : bool :=
  existsb (String.eqb x) xs.

(** [sep * n] *)
Fixpoint repeat_str (s : string) (n : nat) : string :=
  match n with
  | O => ""
  | S k => s +:+ repeat_str s k
  end.

End PyStr.

(** ** [os.path.basename] and the pure part of [pathlib] *)

Module PyPath.

(** A POSIX path: its components, outermost first.  The empty list is the
    root directory.  An unresolved path may hold [".."] components. *)
Abbreviation path := (list string).

(** [posixpath.basename(p)]: [i = p.rfind('/') + 1; return p[i:]]. *)
Definition basename (p : string) : string := PyStr.after_last PyStr.slash p.

(** [str(path)] *)
Definition str_path (p : path) : string :=
  "/" +:+ PyStr.join "/" p.

(** The components [pathlib] keeps when it parses a string: the empty
    pieces and the ["."] pieces are dropped, [".."] stays. *)
Definition parse_parts (s : string) : list string :=
  filter (fun c => c <> "" /\ c <> ".") (PyStr.split PyStr.slash s).

(** [base / s]: an absolute [s] replaces [base]. *)
Definition joinpath (base : path) (s : string) : path :=
  if PyStr.startswith s "/" then parse_parts s else base ++ parse_parts s.

(** [path.name] *)
Definition name (p : path) : string := List.last p "".

(** [path.parent] *)
Definition parent (p : path) : path := removelast p.

(** [path.suffix] (CPython 3.11):
    [i = name.rfind('.'); name[i:] if 0 < i < len(name) - 1 else '']. *)
Definition suffix (p : path) : string :=
  let nm := name p in
  let ext := PyStr.after_last PyStr.dot nm in
  if PyStr.contains PyStr.dot nm
     && negb (String.eqb ext "")
     && (String.length ext + 1 <? String.length nm)%nat
  then "." +:+ ext
  else "".

End PyPath.

Export PyPath.

(** ** Exceptions and the computation monad *)

(** The classes of Python's [Exception] hierarchy this program can meet.
    [SqliteError] stands for [sqlite3.Error] and its subclasses, and
    [OtherError] for any further subclass of [Exception]. *)
Inductive exn_class : Type :=
  | Exception
  | ValueError
  | UnicodeDecodeError
  | ImportError
  | ModuleNotFoundError
  | OSError
  | FileNotFoundError
  | IsADirectoryError
  | NotADirectoryError
  | PermissionError
  | RuntimeError
  | IndexError
  | TypeError
  | SqliteError
  | OtherError (name : string).

Global Instance exn_class_eq_dec : EqDecision exn_class.
Proof. solve_decision. Defined.

(** The proper base classes of a class, nearest first. *)
Definition bases (c : exn_class) : list exn_class :=
  match c with
  | Exception => []
  | UnicodeDecodeError => [ValueError; Exception]
  | ModuleNotFoundError => [ImportError; Exception]
  | FileNotFoundError | IsADirectoryError | NotADirectoryError
  | PermissionError => [OSError; Exception]
  | _ => [Exception]
  end.

(** An exception object: its class and the text [str(e)] gives. *)
Record exn : Type := mk_exn { exn_cls : exn_class; exn_str : string }.

(** [isinstance(e, c)] *)
Definition isinstance (e : exn) (c : exn_class) : bool :=
  bool_decide (c = exn_cls e) || bool_decide (c ∈ bases (exn_cls e)).

(** The outcome of a call: a value, or an exception on its way up. *)
Inductive res (A : Type) : Type :=
  | Ret (a : A)
  | Raise (e : exn).
Arguments Ret {A} a.
Arguments Raise {A} e.

(** A computation over a world [W]: it ends in a value or an exception, and
    in both cases in a new world. *)
Definition M (W A : Type) : Type := W -> res A * W.

Definition ret {W A} (a : A) : M W A := fun w => (Ret a, w).

Definition raise {W A} (e : exn) : M W A := fun w => (Raise e, w).

Definition bind {W A B} (m : M W A) (k : A -> M W B) : M W B :=
  fun w =>
    match m w with
    | (Ret a, w') => k a w'
    | (Raise e, w') => (Raise e, w')
    end.

Notation "x <- m ;; k" := (bind m (fun x => k))
  (at level 100, m at next level, right associativity).
Notation "m ;; k" := (bind m (fun _ => k))
  (at level 100, right associativity).

(** The first handler whose class the exception is an instance of. *)
Fixpoint find_handler {W A} (e : exn) (hs : list (exn_class * (exn -> M W A)))
  : option (exn -> M W A) :=
  match hs with
  | [] => None
  | (c, h) :: rest => if isinstance e c then Some h else find_handler e rest
  end.

(** [try: m except C1 as e: h1 e except C2 as e: h2 e ...].  An exception
    no handler matches goes on up; one raised inside a handler does too. *)
Definition try_ {W A} (m : M W A) (hs : list (exn_class * (exn -> M W A)))
  : M W A :=
  fun w =>
    match m w with
    | (Ret a, w') => (Ret a, w')
    | (Raise e, w') =>
        match find_handler e hs with
        | Some h => h e w'
        | None => (Raise e, w')
        end
    end.

(** A left-to-right loop with an accumulator: [for x in xs: acc = f acc x]. *)
Fixpoint for_each {W A B} (xs : list A) (acc : B) (f : B -> A -> M W B)
  : M W B :=
  match xs with
  | [] => ret acc
  | x :: rest => acc' <- f acc x ;; for_each rest acc' f
  end.

(** [[x for x in xs if p(x)]] with an effectful test. *)
Fixpoint filter_m {W A} (p : A -> M W bool) (xs : list A) : M W (list A) :=
  match xs with
  | [] => ret []
  | x :: rest =>
      keep <- p x ;;
      tail <- filter_m p rest ;;
      ret (if keep then x :: tail else tail)
  end.

(** ** Values of SQLite and how Python prints them *)

(** A value in a result row.  A REAL is carried by the text Python's
    [repr] gives for it; arithmetic on it is not modelled. *)
Inductive sqlval : Type :=
  | VNull
  | VInt (z : Z)
  | VReal (shown : string)
  | VText (s : string)
  | VBlob (b : string).

Module PyRepr.

Definition hex_digit (n : nat) : ascii :=
  if (n <? 10)%nat then Ascii.ascii_of_nat (48 + n)
  else Ascii.ascii_of_nat (87 + n).

(** [\xhh] *)
Definition hex_escape (c : ascii) : string :=
  let n := Ascii.nat_of_ascii c in
  String "\" (String "x" (String (hex_digit (n / 16))
                            (String (hex_digit (n mod 16)) ""))).

(** The last [width] hexadecimal digits of [n]. *)
Fixpoint hex_digits (width : nat) (n : N) : string :=
  match width with
  | O => ""
  | S k => hex_digits k (n / 16)
             +:+ String (hex_digit (N.to_nat (n mod 16))) ""
  end.

Definition squote : ascii := "'"%char.
Definition dquote : ascii := Ascii.ascii_of_nat 34.

(** The code points from 128 on that [str.isprintable] rejects, in closed
    ranges: the control, format, separator, surrogate, private-use and
    unassigned ones of the character database of CPython 3.11
    (Unicode 14.0). *)
Definition not_printable : list (N * N) :=
  [ (128, 160); (173, 173); (888, 889); (896, 899); (907, 907); (909, 909);
    (930, 930); (1328, 1328); (1367, 1368); (1419, 1420); (1424, 1424);
    (1480, 1487); (1515, 1518); (1525, 1541); (1564, 1564); (1757, 1757);
    (1806, 1807); (1867, 1868); (1970, 1983); (2043, 2044); (2094, 2095);
    (2111, 2111); (2140, 2141); (2143, 2143); (2155, 2159); (2191, 2199);
    (2274, 2274); (2436, 2436); (2445, 2446); (2449, 2450); (2473, 2473);
    (2481, 2481); (2483, 2485); (2490, 2491); (2501, 2502); (2505, 2506);
    (2511, 2518); (2520, 2523); (2526, 2526); (2532, 2533); (2559, 2560);
    (2564, 2564); (2571, 2574); (2577, 2578); (2601, 2601); (2609, 2609);
    (2612, 2612); (2615, 2615); (2618, 2619); (2621, 2621); (2627, 2630);
    (2633, 2634); (2638, 2640); (2642, 2648); (2653, 2653); (2655, 2661);
    (2679, 2688); (2692, 2692); (2702, 2702); (2706, 2706); (2729, 2729);
    (2737, 2737); (2740, 2740); (2746, 2747); (2758, 2758); (2762, 2762);
    (2766, 2767); (2769, 2783); (2788, 2789); (2802, 2808); (2816, 2816);
    (2820, 2820); (2829, 2830); (2833, 2834); (2857, 2857); (2865, 2865);
    (2868, 2868); (2874, 2875); (2885, 2886); (2889, 2890); (2894, 2900);
    (2904, 2907); (2910, 2910); (2916, 2917); (2936, 2945); (2948, 2948);
    (2955, 2957); (2961, 2961); (2966, 2968); (2971, 2971); (2973, 2973);
    (2976, 2978); (2981, 2983); (2987, 2989); (3002, 3005); (3011, 3013);
    (3017, 3017); (3022, 3023); (3025, 3030); (3032, 3045); (3067, 3071);
    (3085, 3085); (3089, 3089); (3113, 3113); (3130, 3131); (3141, 3141);
    (3145, 3145); (3150, 3156); (3159, 3159); (3163, 3164); (3166, 3167);
    (3172, 3173); (3184, 3190); (3213, 3213); (3217, 3217); (3241, 3241);
    (3252, 3252); (3258, 3259); (3269, 3269); (3273, 3273); (3278, 3284);
    (3287, 3292); (3295, 3295); (3300, 3301); (3312, 3312); (3315, 3327);
    (3341, 3341); (3345, 3345); (3397, 3397); (3401, 3401); (3408, 3411);
    (3428, 3429); (3456, 3456); (3460, 3460); (3479, 3481); (3506, 3506);
    (3516, 3516); (3518, 3519); (3527, 3529); (3531, 3534); (3541, 3541);
    (3543, 3543); (3552, 3557); (3568, 3569); (3573, 3584); (3643, 3646);
    (3676, 3712); (3715, 3715); (3717, 3717); (3723, 3723); (3748, 3748);
    (3750, 3750); (3774, 3775); (3781, 3781); (3783, 3783); (3790, 3791);
    (3802, 3803); (3808, 3839); (3912, 3912); (3949, 3952); (3992, 3992);
    (4029, 4029); (4045, 4045); (4059, 4095); (4294, 4294); (4296, 4300);
    (4302, 4303); (4681, 4681); (4686, 4687); (4695, 4695); (4697, 4697);
    (4702, 4703); (4745, 4745); (4750, 4751); (4785, 4785); (4790, 4791);
    (4799, 4799); (4801, 4801); (4806, 4807); (4823, 4823); (4881, 4881);
    (4886, 4887); (4955, 4956); (4989, 4991); (5018, 5023); (5110, 5111);
    (5118, 5119); (5760, 5760); (5789, 5791); (5881, 5887); (5910, 5918);
    (5943, 5951); (5972, 5983); (5997, 5997); (6001, 6001); (6004, 6015);
    (6110, 6111); (6122, 6127); (6138, 6143); (6158, 6158); (6170, 6175);
    (6265, 6271); (6315, 6319); (6390, 6399); (6431, 6431); (6444, 6447);
    (6460, 6463); (6465, 6467); (6510, 6511); (6517, 6527); (6572, 6575);
    (6602, 6607); (6619, 6621); (6684, 6685); (6751, 6751); (6781, 6782);
    (6794, 6799); (6810, 6815); (6830, 6831); (6863, 6911); (6989, 6991);
    (7039, 7039); (7156, 7163); (7224, 7226); (7242, 7244); (7305, 7311);
    (7355, 7356); (7368, 7375); (7419, 7423); (7958, 7959); (7966, 7967);
    (8006, 8007); (8014, 8015); (8024, 8024); (8026, 8026); (8028, 8028);
    (8030, 8030); (8062, 8063); (8117, 8117); (8133, 8133); (8148, 8149);
    (8156, 8156); (8176, 8177); (8181, 8181); (8191, 8207); (8232, 8239);
    (8287, 8303); (8306, 8307); (8335, 8335); (8349, 8351); (8385, 8399);
    (8433, 8447); (8588, 8591); (9255, 9279); (9291, 9311); (11124, 11125);
    (11158, 11158); (11508, 11512); (11558, 11558); (11560, 11564);
    (11566, 11567); (11624, 11630); (11633, 11646); (11671, 11679);
    (11687, 11687); (11695, 11695); (11703, 11703); (11711, 11711);
    (11719, 11719); (11727, 11727); (11735, 11735); (11743, 11743);
    (11870, 11903); (11930, 11930); (12020, 12031); (12246, 12271);
    (12284, 12288); (12352, 12352); (12439, 12440); (12544, 12548);
    (12592, 12592); (12687, 12687); (12772, 12783); (12831, 12831);
    (42125, 42127); (42183, 42191); (42540, 42559); (42744, 42751);
    (42955, 42959); (42962, 42962); (42964, 42964); (42970, 42993);
    (43053, 43055); (43066, 43071); (43128, 43135); (43206, 43213);
    (43226, 43231); (43348, 43358); (43389, 43391); (43470, 43470);
    (43482, 43485); (43519, 43519); (43575, 43583); (43598, 43599);
    (43610, 43611); (43715, 43738); (43767, 43776); (43783, 43784);
    (43791, 43792); (43799, 43807); (43815, 43815); (43823, 43823);
    (43884, 43887); (44014, 44015); (44026, 44031); (55204, 55215);
    (55239, 55242); (55292, 63743); (64110, 64111); (64218, 64255);
    (64263, 64274); (64280, 64284); (64311, 64311); (64317, 64317);
    (64319, 64319); (64322, 64322); (64325, 64325); (64451, 64466);
    (64912, 64913); (64968, 64974); (64976, 65007); (65050, 65055);
    (65107, 65107); (65127, 65127); (65132, 65135); (65141, 65141);
    (65277, 65280); (65471, 65473); (65480, 65481); (65488, 65489);
    (65496, 65497); (65501, 65503); (65511, 65511); (65519, 65531);
    (65534, 65535); (65548, 65548); (65575, 65575); (65595, 65595);
    (65598, 65598); (65614, 65615); (65630, 65663); (65787, 65791);
    (65795, 65798); (65844, 65846); (65935, 65935); (65949, 65951);
    (65953, 65999); (66046, 66175); (66205, 66207); (66257, 66271);
    (66300, 66303); (66340, 66348); (66379, 66383); (66427, 66431);
    (66462, 66462); (66500, 66503); (66518, 66559); (66718, 66719);
    (66730, 66735); (66772, 66775); (66812, 66815); (66856, 66863);
    (66916, 66926); (66939, 66939); (66955, 66955); (66963, 66963);
    (66966, 66966); (66978, 66978); (66994, 66994); (67002, 67002);
    (67005, 67071); (67383, 67391); (67414, 67423); (67432, 67455);
    (67462, 67462); (67505, 67505); (67515, 67583); (67590, 67591);
    (67593, 67593); (67638, 67638); (67641, 67643); (67645, 67646);
    (67670, 67670); (67743, 67750); (67760, 67807); (67827, 67827);
    (67830, 67834); (67868, 67870); (67898, 67902); (67904, 67967);
    (68024, 68027); (68048, 68049); (68100, 68100); (68103, 68107);
    (68116, 68116); (68120, 68120); (68150, 68151); (68155, 68158);
    (68169, 68175); (68185, 68191); (68256, 68287); (68327, 68330);
    (68343, 68351); (68406, 68408); (68438, 68439); (68467, 68471);
    (68498, 68504); (68509, 68520); (68528, 68607); (68681, 68735);
    (68787, 68799); (68851, 68857); (68904, 68911); (68922, 69215);
    (69247, 69247); (69290, 69290); (69294, 69295); (69298, 69375);
    (69416, 69423); (69466, 69487); (69514, 69551); (69580, 69599);
    (69623, 69631); (69710, 69713); (69750, 69758); (69821, 69821);
    (69827, 69839); (69865, 69871); (69882, 69887); (69941, 69941);
    (69960, 69967); (70007, 70015); (70112, 70112); (70133, 70143);
    (70162, 70162); (70207, 70271); (70279, 70279); (70281, 70281);
    (70286, 70286); (70302, 70302); (70314, 70319); (70379, 70383);
    (70394, 70399); (70404, 70404); (70413, 70414); (70417, 70418);
    (70441, 70441); (70449, 70449); (70452, 70452); (70458, 70458);
    (70469, 70470); (70473, 70474); (70478, 70479); (70481, 70486);
    (70488, 70492); (70500, 70501); (70509, 70511); (70517, 70655);
    (70748, 70748); (70754, 70783); (70856, 70863); (70874, 71039);
    (71094, 71095); (71134, 71167); (71237, 71247); (71258, 71263);
    (71277, 71295); (71354, 71359); (71370, 71423); (71451, 71452);
    (71468, 71471); (71495, 71679); (71740, 71839); (71923, 71934);
    (71943, 71944); (71946, 71947); (71956, 71956); (71959, 71959);
    (71990, 71990); (71993, 71994); (72007, 72015); (72026, 72095);
    (72104, 72105); (72152, 72153); (72165, 72191); (72264, 72271);
    (72355, 72367); (72441, 72703); (72713, 72713); (72759, 72759);
    (72774, 72783); (72813, 72815); (72848, 72849); (72872, 72872);
    (72887, 72959); (72967, 72967); (72970, 72970); (73015, 73017);
    (73019, 73019); (73022, 73022); (73032, 73039); (73050, 73055);
    (73062, 73062); (73065, 73065); (73103, 73103); (73106, 73106);
    (73113, 73119); (73130, 73439); (73465, 73647); (73649, 73663);
    (73714, 73726); (74650, 74751); (74863, 74863); (74869, 74879);
    (75076, 77711); (77811, 77823); (78895, 82943); (83527, 92159);
    (92729, 92735); (92767, 92767); (92778, 92781); (92863, 92863);
    (92874, 92879); (92910, 92911); (92918, 92927); (92998, 93007);
    (93018, 93018); (93026, 93026); (93048, 93052); (93072, 93759);
    (93851, 93951); (94027, 94030); (94088, 94094); (94112, 94175);
    (94181, 94191); (94194, 94207); (100344, 100351); (101590, 101631);
    (101641, 110575); (110580, 110580); (110588, 110588); (110591, 110591);
    (110883, 110927); (110931, 110947); (110952, 110959); (111356, 113663);
    (113771, 113775); (113789, 113791); (113801, 113807); (113818, 113819);
    (113824, 118527); (118574, 118575); (118599, 118607); (118724, 118783);
    (119030, 119039); (119079, 119080); (119155, 119162); (119275, 119295);
    (119366, 119519); (119540, 119551); (119639, 119647); (119673, 119807);
    (119893, 119893); (119965, 119965); (119968, 119969); (119971, 119972);
    (119975, 119976); (119981, 119981); (119994, 119994); (119996, 119996);
    (120004, 120004); (120070, 120070); (120075, 120076); (120085, 120085);
    (120093, 120093); (120122, 120122); (120127, 120127); (120133, 120133);
    (120135, 120137); (120145, 120145); (120486, 120487); (120780, 120781);
    (121484, 121498); (121504, 121504); (121520, 122623); (122655, 122879);
    (122887, 122887); (122905, 122906); (122914, 122914); (122917, 122917);
    (122923, 123135); (123181, 123183); (123198, 123199); (123210, 123213);
    (123216, 123535); (123567, 123583); (123642, 123646); (123648, 124895);
    (124903, 124903); (124908, 124908); (124911, 124911); (124927, 124927);
    (125125, 125126); (125143, 125183); (125260, 125263); (125274, 125277);
    (125280, 126064); (126133, 126208); (126270, 126463); (126468, 126468);
    (126496, 126496); (126499, 126499); (126501, 126502); (126504, 126504);
    (126515, 126515); (126520, 126520); (126522, 126522); (126524, 126529);
    (126531, 126534); (126536, 126536); (126538, 126538); (126540, 126540);
    (126544, 126544); (126547, 126547); (126549, 126550); (126552, 126552);
    (126554, 126554); (126556, 126556); (126558, 126558); (126560, 126560);
    (126563, 126563); (126565, 126566); (126571, 126571); (126579, 126579);
    (126584, 126584); (126589, 126589); (126591, 126591); (126602, 126602);
    (126620, 126624); (126628, 126628); (126634, 126634); (126652, 126703);
    (126706, 126975); (127020, 127023); (127124, 127135); (127151, 127152);
    (127168, 127168); (127184, 127184); (127222, 127231); (127406, 127461);
    (127491, 127503); (127548, 127551); (127561, 127567); (127570, 127583);
    (127590, 127743); (128728, 128732); (128749, 128751); (128765, 128767);
    (128884, 128895); (128985, 128991); (129004, 129007); (129009, 129023);
    (129036, 129039); (129096, 129103); (129114, 129119); (129160, 129167);
    (129198, 129199); (129202, 129279); (129620, 129631); (129646, 129647);
    (129653, 129655); (129661, 129663); (129671, 129679); (129709, 129711);
    (129723, 129727); (129734, 129743); (129754, 129759); (129768, 129775);
    (129783, 129791); (129939, 129939); (129995, 130031); (130042, 131071);
    (173792, 173823); (177977, 177983); (178206, 178207); (183970, 183983);
    (191457, 194559); (195102, 196607); (201547, 917759);
    (918000, 1114111) ]%N.

Definition isprintable (cp : N) : bool :=
  negb (existsb (fun r => (fst r <=? cp)%N && (cp <=? snd r)%N) not_printable).

(** The escape of one ASCII character, or of one byte of a [bytes], inside
    the quotes [q]. *)
Definition escape_char (q c : ascii) : string :=
  let n := Ascii.nat_of_ascii c in
  if Ascii.eqb c "\" then "\\"
  else if Ascii.eqb c q then String "\" (String c "")
  else if (n =? 9)%nat then "\t"
  else if (n =? 10)%nat then "\n"
  else if (n =? 13)%nat then "\r"
  else if (n <? 32)%nat || (127 <=? n)%nat then hex_escape c
  else String c "".

(** [\xhh], [\uhhhh] or [\Uhhhhhhhh], by the size of the code point. *)
Definition escape_code_point (cp : N) : string :=
  if (cp <? 256)%N then "\x" +:+ hex_digits 2 cp
  else if (cp <? 65536)%N then "\u" +:+ hex_digits 4 cp
  else "\U" +:+ hex_digits 8 cp.

(** A character outside ASCII, given by its code point and its UTF-8
    form: it stays when it is printable and is escaped when not. *)
Definition show_code_point (cp : N) (form : string) : string :=
  if isprintable cp then form else escape_code_point cp.

(** The six bits a continuation byte carries. *)
Definition low6 (c : ascii) : N := (Ascii.N_of_ascii c mod 64)%N.

(** The inside of [repr(s)] for a [str]: the text is read character by
    character from its UTF-8 form, of one to four bytes by the first
    byte.  Bytes that are no UTF-8 do not come from a [str]; they are
    left as they are. *)
Fixpoint escape_str (q : ascii) (s : string) : string :=
  match s with
  | "" => ""
  | String c r =>
      let n := Ascii.N_of_ascii c in
      if (n <? 128)%N then escape_char q c +:+ escape_str q r
      else
        match r with
        | String c1 r1 =>
            if (n <? 224)%N then
              show_code_point ((n mod 32) * 64 + low6 c1)%N
                (String c (String c1 ""))
                +:+ escape_str q r1
            else
              match r1 with
              | String c2 r2 =>
                  if (n <? 240)%N then
                    show_code_point
                      ((n mod 16) * 4096 + low6 c1 * 64 + low6 c2)%N
                      (String c (String c1 (String c2 "")))
                      +:+ escape_str q r2
                  else
                    match r2 with
                    | String c3 r3 =>
                        show_code_point
                          ((n mod 8) * 262144 + low6 c1 * 4096
                             + low6 c2 * 64 + low6 c3)%N
                          (String c (String c1 (String c2 (String c3 ""))))
                          +:+ escape_str q r3
                    | "" => s
                    end
              | "" => s
              end
        | "" => s
        end
  end.

(** The inside of [repr(b)] for a [bytes]. *)
Fixpoint escape_bytes (q : ascii) (b : string) : string :=
  match b with
  | "" => ""
  | String c r => escape_char q c +:+ escape_bytes q r
  end.

(** Double quotes are used only when the text has a single quote and no
    double quote. *)
Definition quote_of (s : string) : ascii :=
  if PyStr.contains squote s && negb (PyStr.contains dquote s)
  then dquote else squote.

(** [repr(s)] for a [str]. *)
Definition repr_str (s : string) : string :=
  let q := quote_of s in
  String q (escape_str q s +:+ String q "").

(** [repr(b)] for a [bytes]. *)
Definition repr_bytes (b : string) : string :=
  let q := quote_of b in
  "b" +:+ String q (escape_bytes q b +:+ String q "").

(** [repr(v)] *)
Definition repr (v : sqlval) : string :=
  match v with
  | VNull => "None"
  | VInt z => pretty z
  | VReal shown => shown
  | VText s => repr_str s
  | VBlob b => repr_bytes b
  end.

(** [str(v)], which is what an f-string inserts. *)
Definition str (v : sqlval) : string :=
  match v with
  | VText s => s
  | _ => repr v
  end.

(** [d[k] = v] on a dictionary kept in insertion order. *)
Fixpoint dict_set {V} (k : string) (v : V) (d : list (string * V))
  : list (string * V) :=
  match d with
  | [] => [(k, v)]
  | (k', v') :: rest =>
      if String.eqb k k' then (k, v) :: rest
      else (k', v') :: dict_set k v rest
  end.

(** [zip(xs, ys)]: as long as the shorter one. *)
Fixpoint zip {A B} (xs : list A) (ys : list B) : list (A * B) :=
  match xs, ys with
  | x :: xs', y :: ys' => (x, y) :: zip xs' ys'
  | _, _ => []
  end.

(** [dict(pairs)]: a later pair with the same key replaces the value and
    keeps the place of the first. *)
Definition dict {V} (pairs : list (string * V)) : list (string * V) :=
  fold_left (fun d kv => dict_set (fst kv) (snd kv) d) pairs [].

(** [repr] of a dictionary from column names to values. *)
Definition repr_dict (d : list (string * sqlval)) : string :=
  "{" +:+ PyStr.join ", "
            (map (fun kv => repr_str (fst kv) +:+ ": " +:+ repr (snd kv)) d)
      +:+ "}".

(** [str] of a list of such dictionaries. *)
Definition str_dict_list (ds : list (list (string * sqlval))) : string :=
  "[" +:+ PyStr.join ", " (map repr_dict ds) +:+ "]".

End PyRepr.

(** ** The interface to the Python runtime and the operating system *)

(** Every call the program makes outside its own text.  Each may change the
    world and may raise any exception. *)
Class Platform : Type := {
  World : Type;
  (** a [sqlite3.Connection] and a [sqlite3.Cursor] *)
  Conn : Type;
  Cursor : Type;
  (** [path.resolve()] *)
  path_resolve : path -> M World path;
  (** [path.exists()] *)
  path_exists : path -> M World bool;
  (** [path.is_file()] *)
  path_is_file : path -> M World bool;
  (** [list(path.iterdir())] *)
  path_iterdir : path -> M World (list path);
  (** [with open(path, "r", encoding="utf-8") as f: f.read()] *)
  open_read : path -> M World string;
  (** [with open(path, mode, encoding="utf-8") as f: f.write(content)] *)
  open_write : path -> string -> string -> M World unit;
  (** [os.remove(path)] *)
  os_remove : path -> M World unit;
  (** [from pypdf import PdfReader] and then
      [[page.extract_text() for page in PdfReader(path).pages]] *)
  pdf_page_texts : path -> M World (list string);
  (** [import docx] and then
      [[para.text for para in docx.Document(path).paragraphs]] *)
  docx_paragraph_texts : path -> M World (list string);
  (** [sqlite3.connect(path)] *)
  sqlite3_connect : path -> M World Conn;
  (** [conn.cursor()] *)
  conn_cursor : Conn -> M World Cursor;
  (** [cursor.execute(statement)] *)
  cursor_execute : Cursor -> string -> M World unit;
  (** [cursor.fetchall()] *)
  cursor_fetchall : Cursor -> M World (list (list sqlval));
  (** [cursor.description], reduced to the column names [d[0]]. *)
  cursor_description : Cursor -> M World (option (list string));
  (** [conn.commit()] *)
  conn_commit : Conn -> M World unit;
  (** [conn.total_changes] *)
  conn_total_changes : Conn -> M World nat;
  (** [conn.close()] *)
  conn_close : Conn -> M World unit;
}.

(** ** The program *)

Section Program.

Context {P : Platform}.

(** [TARGET_FOLDER = Path("./workspace").resolve()], fixed when the
    module is loaded. *)
Variable TARGET_FOLDER : path.

Local Abbreviation T := (M World).

(** [row[i]] on a tuple. *)
Definition tuple_get (row : list sqlval) (i : nat) : T sqlval :=
  match nth_error row i with
  | Some v => ret v
  | None => raise (mk_exn IndexError "tuple index out of range")
  end.

(** The truth value of [cursor.description]: [None] and the empty tuple
    are false. *)
Definition truthy (d : option (list string)) : bool :=
  match d with
  | Some (_ :: _) => true
  | _ => false
  end.

(** The names a comprehension over [cursor.description] collects;
    iterating over [None] is a [TypeError]. *)
Definition iter_description (d : option (list string)) : T (list string) :=
  match d with
  | Some cols => ret cols
  | None => raise (mk_exn TypeError "'NoneType' object is not iterable")
  end.

(** The list in the guard of [write_to_file]. *)
Definition guarded_suffixes : list string :=
  [".pdf"; ".docx"; ".db"; ".sqlite"].

Definition _get_safe_path (filename : string) : T path :=
  let safe_name := basename filename in
  full_path <- path_resolve (joinpath TARGET_FOLDER safe_name) ;;
  if negb (PyStr.startswith (str_path full_path) (str_path TARGET_FOLDER))
  then raise (mk_exn ValueError
                ("Access denied: " +:+ filename
                   +:+ " is outside the allowed directory."))
  else ret full_path.

Definition _read_pdf (p : path) : T string :=
  try_
    (pages <- pdf_page_texts p ;;
     ret (fold_left (fun text page => text +:+ page +:+ PyStr.nl) pages ""))
    [ (ImportError, fun _ => ret "Error: 'pypdf' not installed.");
      (Exception, fun e => ret ("Error reading PDF: " +:+ exn_str e)) ].

Definition _read_docx (p : path) : T string :=
  try_
    (paras <- docx_paragraph_texts p ;;
     ret (PyStr.join PyStr.nl paras))
    [ (ImportError, fun _ => ret "Error: 'python-docx' not installed.");
      (Exception, fun e => ret ("Error reading DOCX: " +:+ exn_str e)) ].

Definition list_files : T string :=
  try_
    (entries <- path_iterdir TARGET_FOLDER ;;
     kept <- filter_m path_is_file entries ;;
     let files := map name kept in
     match files with
     | [] => ret "The workspace is empty."
     | _ => ret ("Files available:" +:+ PyStr.nl
                   +:+ PyStr.join PyStr.nl (map (fun f => "- " +:+ f) files))
     end)
    [ (Exception, fun e => ret ("Error listing files: " +:+ exn_str e)) ].

Definition read_file (filename : string) : T string :=
  try_
    (file_path <- _get_safe_path filename ;;
     found <- path_exists file_path ;;
     if negb found then ret ("Error: File '" +:+ filename +:+ "' not found.")
     else
       let suffix := PyStr.lower (suffix file_path) in
       if String.eqb suffix ".pdf" then _read_pdf file_path
       else if String.eqb suffix ".docx" then _read_docx file_path
       else
         try_ (open_read file_path)
           [ (UnicodeDecodeError, fun _ =>
                ret "Error: Binary file detected. Use 'inspect_sql_db' for databases.") ])
    [ (Exception, fun e => ret ("Error: " +:+ exn_str e)) ].

Definition write_to_file (filename content mode : string) : T string :=
  try_
    (file_path <- _get_safe_path filename ;;
     found <- path_exists file_path ;;
     if found && PyStr.elem (PyStr.lower (suffix file_path)) guarded_suffixes
     then ret "Error: Cannot write text directly to binary/database files."
     else
       let write_mode := if String.eqb mode "a" then "a" else "w" in
       open_write file_path write_mode content ;;
       ret ("âœ… Successfully wrote to " +:+ filename))
    [ (Exception, fun e => ret ("Error: " +:+ exn_str e)) ].

Definition delete_file (filename : string) : T string :=
  try_
    (file_path <- _get_safe_path filename ;;
     found <- path_exists file_path ;;
     if negb found then ret ("Error: File '" +:+ filename +:+ "' not found.")
     else
       os_remove file_path ;;
       ret ("âœ… Successfully deleted " +:+ filename))
    [ (Exception, fun e => ret ("Error deleting file: " +:+ exn_str e)) ].

Definition create_sql_db (filename : string) : T string :=
  if negb (PyStr.endswith filename ".db" || PyStr.endswith filename ".sqlite")
  then ret "Error: Database filename must end with .db or .sqlite"
  else
    try_
      (file_path <- _get_safe_path filename ;;
       found <- path_exists file_path ;;
       if found then ret ("Error: File '" +:+ filename +:+ "' already exists.")
       else
         conn <- sqlite3_connect file_path ;;
         conn_close conn ;;
         ret ("âœ… Created new database: " +:+ filename))
      [ (Exception, fun e => ret ("Error creating database: " +:+ exn_str e)) ].

(** The body of the loop over the columns of one table. *)
Definition report_column (report : string) (col : list sqlval) : T string :=
  c1 <- tuple_get col 1 ;;
  c2 <- tuple_get col 2 ;;
  ret (report +:+ "  - " +:+ PyRepr.str c1 +:+ " (" +:+ PyRepr.str c2
         +:+ ")" +:+ PyStr.nl).

(** The body of the loop over the tables. *)
Definition report_table (cursor : Cursor) (report : string)
  (table : list sqlval) : T string :=
  t_name <- tuple_get table 0 ;;
  let report :=
    report +:+ PyStr.nl +:+ "Table: " +:+ PyRepr.str t_name +:+ PyStr.nl
      +:+ PyStr.repeat_str "-" 20 +:+ PyStr.nl in
  cursor_execute cursor ("PRAGMA table_info(" +:+ PyRepr.str t_name +:+ ");") ;;
  cols <- cursor_fetchall cursor ;;
  for_each cols report report_column.

Definition inspect_sql_db (filename : string) : T string :=
  try_
    (file_path <- _get_safe_path filename ;;
     found <- path_exists file_path ;;
     if negb found then ret "Error: Database file not found."
     else
       conn <- sqlite3_connect file_path ;;
       cursor <- conn_cursor conn ;;
       cursor_execute cursor
         "SELECT name FROM sqlite_master WHERE type='table';" ;;
       tables <- cursor_fetchall cursor ;;
       match tables with
       | [] => conn_close conn ;; ret "Database is empty."
       | _ =>
           let report := "Schema for " +:+ filename +:+ ":" +:+ PyStr.nl in
           report <- for_each tables report (report_table cursor) ;;
           conn_close conn ;;
           ret report
       end)
    [ (Exception, fun e => ret ("Error: " +:+ exn_str e)) ].

Definition run_sql_query (filename query : string) : T string :=
  try_
    (file_path <- _get_safe_path filename ;;
     conn <- sqlite3_connect file_path ;;
     cursor <- conn_cursor conn ;;
     try_
       (cursor_execute cursor query ;;
        conn_commit conn ;;
        description <- cursor_description cursor ;;
        if truthy description then
          rows <- cursor_fetchall cursor ;;
          description <- cursor_description cursor ;;
          cols <- iter_description description ;;
          conn_close conn ;;
          match rows with
          | [] => ret "Query returned 0 results."
          | _ => ret (PyRepr.str_dict_list
                        (map (fun row => PyRepr.dict (PyRepr.zip cols row)) rows))
          end
        else
          changes <- conn_total_changes conn ;;
          conn_close conn ;;
          ret ("âœ… Success. Rows affected: " +:+ pretty changes))
       [ (Exception, fun e =>
            conn_close conn ;;
            ret ("Query Execution Error: " +:+ exn_str e)) ])
    [ (Exception, fun e => ret ("System Error: " +:+ exn_str e)) ].

End Program.

(** ** UTF-8 text files *)

Module Utf8.

Definition in_range (lo hi : nat) (c : ascii) : bool :=
  let n := Ascii.nat_of_ascii c in
  ((lo <=? n) && (n <=? hi))%nat.

(** A continuation byte, 80..BF. *)
Definition cont (c : ascii) : bool := in_range 128 191 c.

(** The second byte of a three-byte form: no overlong form after E0, no
    surrogate after ED. *)
Definition second3 (lead : nat) (c : ascii) : bool :=
  if (lead =? 224)%nat then in_range 160 191 c
  else if (lead =? 237)%nat then in_range 128 159 c
  else cont c.

(** The second byte of a four-byte form: no overlong form after F0,
    nothing above U+10FFFF after F4. *)
Definition second4 (lead : nat) (c : ascii) : bool :=
  if (lead =? 240)%nat then in_range 144 191 c
  else if (lead =? 244)%nat then in_range 128 143 c
  else cont c.

(** Whether the strict [utf-8] codec decodes the bytes. *)
Fixpoint valid (s : string) : bool :=
  match s with
  | "" => true
  | String b0 r =>
      let lead := Ascii.nat_of_ascii b0 in
      if (lead <? 128)%nat then valid r
      else if in_range 194 223 b0 then
        match r with
        | String b1 r1 => cont b1 && valid r1
        | _ => false
        end
      else if in_range 224 239 b0 then
        match r with
        | String b1 (String b2 r2) => second3 lead b1 && cont b2 && valid r2
        | _ => false
        end
      else if in_range 240 244 b0 then
        match r with
        | String b1 (String b2 (String b3 r3)) =>
            second4 lead b1 && cont b2 && cont b3 && valid r3
        | _ => false
        end
      else false
  end.

Definition CR : ascii := Ascii.ascii_of_nat 13.
Definition LF : ascii := Ascii.ascii_of_nat 10.

(** What a text file opened for reading with the default [newline=None]
    does to the decoded text: ["\r\n"] and a lone ["\r"] become ["\n"]. *)
Fixpoint universal_newlines (s : string) : string :=
  match s with
  | "" => ""
  | String c r =>
      if Ascii.eqb c CR then
        match r with
        | String c' r' =>
            if Ascii.eqb c' LF then String LF (universal_newlines r')
            else String LF (universal_newlines r)
        | "" => String LF ""
        end
      else String c (universal_newlines r)
  end.

End Utf8.

(** ** An in-memory POSIX file system with symbolic links *)

Inductive node : Type :=
  | File (data : string)
  | Dir
  | Symlink (target : string).

Module Fs.

(** The loop of [posixpath._joinrealpath]: [cur] is the resolved part,
    [rest] the components still to do.  [follow dir target] resolves the
    target of a link found in the directory [dir]; [None] is a loop of
    links. *)
Fixpoint walk (follow : path -> string -> option path)
  (fs : gmap path node) (cur : path) (rest : list string) : option path :=
  match rest with
  | [] => Some cur
  | name :: rest' =>
      if bool_decide (name = "" \/ name = ".") then walk follow fs cur rest'
      else if bool_decide (name = "..") then
        walk follow fs (removelast cur) rest'
      else
        let newpath := cur ++ [name] in
        match fs !! newpath with
        | Some (Symlink target) =>
            match follow cur target with
            | Some resolved => walk follow fs resolved rest'
            | None => None
            end
        | _ => walk follow fs newpath rest'
        end
  end.

(** [_joinrealpath(cur, rest)]: an absolute [rest] starts again from the
    root.  [depth] bounds how deep links found inside targets of links
    may nest. *)
Fixpoint joinrealpath (depth : nat) (fs : gmap path node)
  (cur : path) (rest : string) : option path :=
  match depth with
  | O => None
  | S d =>
      walk (fun dir target => joinrealpath d fs dir target) fs
        (if PyStr.startswith rest "/" then [] else cur)
        (PyStr.split PyStr.slash rest)
  end.

(** [os.path.realpath(str(p))].  Links nested deeper than the number of
    entries of the file system go through some link twice, which is a
    loop. *)
Definition realpath (fs : gmap path node) (p : path) : option path :=
  joinrealpath (S (size fs)) fs [] (str_path p).

(** [os.stat(p)]: the node the path leads to, links followed. *)
Definition stat (fs : gmap path node) (p : path) : option node :=
  match realpath fs p with
  | Some q => fs !! q
  | None => None
  end.

(** The entries of a directory, as [iterdir] yields them. *)
Definition children (fs : gmap path node) (d : path) : list path :=
  filter (fun q => q <> [] /\ removelast q = d) (map fst (map_to_list fs)).

(** The text of an [OSError] with a file name. *)
Definition oserror (c : exn_class) (text : string) (p : path) : exn :=
  mk_exn c (text +:+ ": " +:+ PyRepr.repr_str (str_path p)).

Definition ENOENT (p : path) : exn :=
  oserror FileNotFoundError "[Errno 2] No such file or directory" p.
Definition ENOTDIR (p : path) : exn :=
  oserror NotADirectoryError "[Errno 20] Not a directory" p.
Definition EISDIR (p : path) : exn :=
  oserror IsADirectoryError "[Errno 21] Is a directory" p.
Definition ELOOP (p : path) : exn :=
  oserror OSError "[Errno 40] Too many levels of symbolic links" p.

(** Why a path that leads to no node cannot be created or opened: its
    directory is missing or is not a directory.  [None] when the
    directory is there. *)
Definition missing_parent (fs : gmap path node) (p q : path) : option exn :=
  match q with
  | [] => Some (ENOENT p)
  | _ =>
      match fs !! removelast q with
      | Some Dir => None
      | Some (File _) => Some (ENOTDIR p)
      | _ => Some (ENOENT p)
      end
  end.

(** The bytes [open(p, "rb")] would read. *)
Definition read_bytes (fs : gmap path node) (p : path) : res string :=
  match realpath fs p with
  | None => Raise (ELOOP p)
  | Some q =>
      match fs !! q with
      | Some (File data) => Ret data
      | Some Dir => Raise (EISDIR p)
      | Some (Symlink _) => Raise (ELOOP p)
      | None =>
          match missing_parent fs p q with
          | Some e => Raise e
          | None => Raise (ENOENT p)
          end
      end
  end.

(** [open(p, mode)] with [mode] ["w"] or ["a"], then [write(content)]:
    the new file system, the file made when it was not there. *)
Definition write_bytes (fs : gmap path node) (p : path) (mode content : string)
  : res (gmap path node) :=
  match realpath fs p with
  | None => Raise (ELOOP p)
  | Some q =>
      match fs !! q with
      | Some (File data) =>
          Ret (<[q := File (if String.eqb mode "a" then data +:+ content
                            else content)]> fs)
      | Some Dir => Raise (EISDIR p)
      | Some (Symlink _) => Raise (ELOOP p)
      | None =>
          match missing_parent fs p q with
          | Some e => Raise e
          | None => Ret (<[q := File content]> fs)
          end
      end
  end.

(** [os.remove(p)]: the directory part is resolved, the last component
    is not followed. *)
Definition remove (fs : gmap path node) (p : path) : res (gmap path node) :=
  match p with
  | [] => Raise (EISDIR p)
  | _ =>
      match realpath fs (removelast p) with
      | None => Raise (ELOOP p)
      | Some d =>
          let q := d ++ [name p] in
          match fs !! q with
          | Some Dir => Raise (EISDIR p)
          | Some _ => Ret (delete q fs)
          | None => Raise (ENOENT p)
          end
      end
  end.

End Fs.

(** ** The SQLite engine and the document readers, as parameters *)

(** What one statement did when it ran: the database image the connection
    sees afterwards, whether SQLite ran it outside a transaction (so that
    the image is in the file at once; Python opens a transaction only in
    front of INSERT, UPDATE, DELETE and REPLACE), the names of the output
    columns if the statement has any, the rows, and the rows changed. *)
Record exec_ok : Type := mk_exec_ok {
  ex_image : string;
  ex_autocommit : bool;
  ex_description : option (list string);
  ex_rows : list (list sqlval);
  ex_changes : nat;
}.

(** A statement runs, or fails with a message; [ExecError msg after] also
    tells the image the file holds after the failure. *)
Inductive exec_result : Type :=
  | ExecOk (r : exec_ok)
  | ExecError (msg : string) (after : string).

(** [sqlite_step image statement]: SQLite on the bytes of a database file. *)
Class SqlEngine : Type := {
  sqlite_step : string -> string -> exec_result;
}.

(** A statement that ran inside a transaction Python opened for it and
    has rows to give: it stays in progress until its rows are fetched. *)
Definition in_progress (r : exec_ok) : bool :=
  negb (ex_autocommit r)
  && match ex_rows r with [] => false | _ :: _ => true end.

(** [pypdf] and [python-docx]: the exception the import raises, if it
    raises one, and what the library makes of the bytes of a file: the
    texts of the pages and of the paragraphs, or the exception of the
    parser. *)
Class DocReaders : Type := {
  pdf_import : option exn;
  pdf_extract : string -> res (list string);
  docx_import : option exn;
  docx_extract : string -> res (list string);
}.

(** ** The in-memory platform *)

(** An open connection: the file it is on, the image it sees (with what
    it has not committed), whether a transaction is open, its
    [total_changes], and the state of its cursor: the output columns, the
    rows not fetched yet, and whether these are the rows of a statement
    that Python ran inside a transaction it opened, an INSERT, UPDATE,
    DELETE or REPLACE with a RETURNING clause. *)
Record conn_state : Type := mk_conn {
  c_path : path;
  c_view : string;
  c_dirty : bool;
  c_total_changes : nat;
  c_description : option (list string);
  c_rows : list (list sqlval);
  c_writing : bool;
}.

(** The world: the file system, the connections that are open, each under
    its handle, and the next free handle. *)
Record world : Type := mk_world {
  w_fs : gmap path node;
  w_conns : gmap nat conn_state;
  w_next : nat;
}.

Module Mem.

Section Ops.

Context {E : SqlEngine} {D : DocReaders}.

Local Abbreviation T := (M world).

Definition with_fs (w : world) (fs : gmap path node) : world :=
  mk_world fs (w_conns w) (w_next w).

Definition with_conn (w : world) (h : nat) (st : conn_state) : world :=
  mk_world (w_fs w) (<[h := st]> (w_conns w)) (w_next w).

Definition resolve (p : path) : T path := fun w =>
  match Fs.realpath (w_fs w) p with
  | Some q => (Ret q, w)
  | None =>
      (Raise (mk_exn RuntimeError
                ("Symlink loop from " +:+ PyRepr.repr_str (str_path p))), w)
  end.

Definition exists_ (p : path) : T bool := fun w =>
  (Ret (bool_decide (is_Some (Fs.stat (w_fs w) p))), w).

Definition is_file (p : path) : T bool := fun w =>
  (Ret (match Fs.stat (w_fs w) p with Some (File _) => true | _ => false end),
   w).

Definition iterdir (p : path) : T (list path) := fun w =>
  match Fs.stat (w_fs w) p with
  | Some Dir =>
      match Fs.realpath (w_fs w) p with
      | Some q => (Ret (Fs.children (w_fs w) q), w)
      | None => (Raise (Fs.ELOOP p), w)
      end
  | Some _ => (Raise (Fs.ENOTDIR p), w)
  | None => (Raise (Fs.ENOENT p), w)
  end.

Definition read_text (p : path) : T string := fun w =>
  match Fs.read_bytes (w_fs w) p with
  | Ret data =>
      if Utf8.valid data then (Ret (Utf8.universal_newlines data), w)
      else (Raise (mk_exn UnicodeDecodeError
                     "'utf-8' codec can't decode bytes"), w)
  | Raise e => (Raise e, w)
  end.

Definition write_text (p : path) (mode content : string) : T unit := fun w =>
  match Fs.write_bytes (w_fs w) p mode content with
  | Ret fs' => (Ret tt, with_fs w fs')
  | Raise e => (Raise e, w)
  end.

Definition remove (p : path) : T unit := fun w =>
  match Fs.remove (w_fs w) p with
  | Ret fs' => (Ret tt, with_fs w fs')
  | Raise e => (Raise e, w)
  end.

(** The import comes first; the file is opened by the reader. *)
Definition pdf_pages (p : path) : T (list string) := fun w =>
  match pdf_import with
  | Some e => (Raise e, w)
  | None =>
      match Fs.read_bytes (w_fs w) p with
      | Ret data => (pdf_extract data, w)
      | Raise e => (Raise e, w)
      end
  end.

Definition docx_paragraphs (p : path) : T (list string) := fun w =>
  match docx_import with
  | Some e => (Raise e, w)
  | None =>
      match Fs.read_bytes (w_fs w) p with
      | Ret data => (docx_extract data, w)
      | Raise e => (Raise e, w)
      end
  end.

Definition cannot_open : exn :=
  mk_exn SqliteError "unable to open database file".

Definition closed_database : exn :=
  mk_exn SqliteError "Cannot operate on a closed database.".

Definition statements_in_progress : exn :=
  mk_exn SqliteError "cannot commit transaction - SQL statements in progress".

(** A fresh connection on the file at [q] with the bytes [data]. *)
Definition open_conn (w : world) (q : path) (data : string) : res nat * world :=
  let h := w_next w in
  (Ret h,
   mk_world (w_fs w)
     (<[h := mk_conn q data false 0 None [] false]> (w_conns w))
     (S h)).

(** [sqlite3.connect(p)]: a file that is not there is made, empty. *)
Definition connect (p : path) : T nat := fun w =>
  match Fs.realpath (w_fs w) p with
  | None => (Raise cannot_open, w)
  | Some q =>
      match w_fs w !! q with
      | Some (File data) => open_conn w q data
      | None =>
          match Fs.missing_parent (w_fs w) p q with
          | Some _ => (Raise cannot_open, w)
          | None => open_conn (with_fs w (<[q := File ""]> (w_fs w))) q ""
          end
      | Some _ => (Raise cannot_open, w)
      end
  end.

Definition cursor (h : nat) : T nat := fun w =>
  match w_conns w !! h with
  | Some _ => (Ret h, w)
  | None => (Raise closed_database, w)
  end.

(** [cursor.execute(statement)].  The rows of the statement wait in the
    cursor; a statement that fails leaves the cursor without columns and
    without rows. *)
Definition execute (h : nat) (statement : string) : T unit := fun w =>
  match w_conns w !! h with
  | None => (Raise closed_database, w)
  | Some st =>
      match sqlite_step (c_view st) statement with
      | ExecOk r =>
          let durable := ex_autocommit r && negb (c_dirty st) in
          let st' :=
            mk_conn (c_path st) (ex_image r) (negb durable)
              (c_total_changes st + ex_changes r)
              (ex_description r) (ex_rows r) (in_progress r) in
          let fs' :=
            if durable then <[c_path st := File (ex_image r)]> (w_fs w)
            else w_fs w in
          (Ret tt, with_conn (with_fs w fs') h st')
      | ExecError msg after =>
          let st' :=
            mk_conn (c_path st) after (c_dirty st) (c_total_changes st)
              None [] false in
          (Raise (mk_exn SqliteError msg),
           with_conn (with_fs w (<[c_path st := File after]> (w_fs w))) h st')
      end
  end.

Definition fetchall (h : nat) : T (list (list sqlval)) := fun w =>
  match w_conns w !! h with
  | None => (Raise closed_database, w)
  | Some st =>
      (Ret (c_rows st),
       with_conn w h
         (mk_conn (c_path st) (c_view st) (c_dirty st) (c_total_changes st)
            (c_description st) [] false))
  end.

Definition description (h : nat) : T (option (list string)) := fun w =>
  match w_conns w !! h with
  | None => (Raise closed_database, w)
  | Some st => (Ret (c_description st), w)
  end.

(** [conn.commit()]: what the open transaction did goes to the file.
    Without a transaction nothing is done.  SQLite refuses to commit while
    a statement that writes has rows that were not fetched; the
    transaction stays open then. *)
Definition commit (h : nat) : T unit := fun w =>
  match w_conns w !! h with
  | None => (Raise closed_database, w)
  | Some st =>
      if c_dirty st then
        if c_writing st then (Raise statements_in_progress, w)
        else
          (Ret tt,
           with_conn (with_fs w (<[c_path st := File (c_view st)]> (w_fs w))) h
             (mk_conn (c_path st) (c_view st) false (c_total_changes st)
                (c_description st) (c_rows st) false))
      else (Ret tt, w)
  end.

Definition total_changes (h : nat) : T nat := fun w =>
  match w_conns w !! h with
  | None => (Raise closed_database, w)
  | Some st => (Ret (c_total_changes st), w)
  end.

(** [conn.close()]: what was not committed is dropped; closing twice is
    allowed. *)
Definition close (h : nat) : T unit := fun w =>
  (Ret tt, mk_world (w_fs w) (delete h (w_conns w)) (w_next w)).

End Ops.

End Mem.

Global Instance MemPlatform {E : SqlEngine} {D : DocReaders} : Platform := {|
  World := world;
  Conn := nat;
  Cursor := nat;
  path_resolve := Mem.resolve;
  path_exists := Mem.exists_;
  path_is_file := Mem.is_file;
  path_iterdir := Mem.iterdir;
  open_read := Mem.read_text;
  open_write := Mem.write_text;
  os_remove := Mem.remove;
  pdf_page_texts := Mem.pdf_pages;
  docx_paragraph_texts := Mem.docx_paragraphs;
  sqlite3_connect := Mem.connect;
  conn_cursor := Mem.cursor;
  cursor_execute := Mem.execute;
  cursor_fetchall := Mem.fetchall;
  cursor_description := Mem.description;
  conn_commit := Mem.commit;
  conn_total_changes := Mem.total_changes;
  conn_close := Mem.close;
|}.

(** ** Notions the statements use *)

(** [p] is [root] or lies below it. *)
Definition inside (root p : path) : Prop := exists rest, p = root ++ rest.

(** A name that can be one component of a resolved path. *)
Definition plain (nm : string) : Prop :=
  nm <> "" /\ nm <> "." /\ nm <> ".." /\ PyStr.contains PyStr.slash nm = false.

Definition no_link (fs : gmap path node) (p : path) : Prop :=
  forall t, fs !! p <> Some (Symlink t).

(** A resolved path: plain components, and no prefix of it is a link. *)
Inductive canonical (fs : gmap path node) : path -> Prop :=
  | canonical_root : canonical fs []
  | canonical_snoc p nm :
      canonical fs p -> plain nm -> no_link fs (p ++ [nm]) ->
      canonical fs (p ++ [nm]).

(** The target of the link at a path, if a link is there. *)
Definition link_of (fs : gmap path node) (q : path) : option string :=
  match fs !! q with
  | Some (Symlink t) => Some t
  | _ => None
  end.

(** A regular file is at [p], or nothing is and the directory of [p] is
    there, so that a file can be made. *)
Definition regular_or_new (fs : gmap path node) (p : path) : Prop :=
  (exists data, fs !! p = Some (File data))
  \/ (fs !! p = None /\ Fs.missing_parent fs p p = None).

(** The text [run_sql_query] returns for a statement that ran. *)
Definition outcome_text (r : exec_ok) : string :=
  if truthy (ex_description r) then
    match ex_rows r with
    | [] => "Query returned 0 results."
    | rows =>
        PyRepr.str_dict_list
          (map (fun row =>
                  PyRepr.dict (PyRepr.zip (default [] (ex_description r)) row))
             rows)
    end
  else "âœ… Success. Rows affected: " +:+ pretty (ex_changes r).

(** ** A small world for the examples *)

Module Sample.

(** A stand-in for SQLite that knows three statements and rejects the
    rest.  A database image is the text of the statements that changed
    it. *)
Definition step (image statement : string) : exec_result :=
  if String.eqb statement "SELECT 1" then
    ExecOk (mk_exec_ok image true (Some ["1"]) [[VInt 1]] 0)
  else if String.eqb statement "CREATE TABLE t(id INT)" then
    ExecOk (mk_exec_ok (image +:+ "CREATE TABLE t(id INT);") true None [] 0)
  else if String.eqb statement "INSERT INTO t VALUES (7)" then
    ExecOk (mk_exec_ok (image +:+ "INSERT INTO t VALUES (7);") false None [] 1)
  else
    ExecError "near SELEC: syntax error" image.

Definition engine : SqlEngine := {| sqlite_step := step |}.

(** Neither [pypdf] nor [python-docx] is installed. *)
Definition readers : DocReaders := {|
  pdf_import := Some (mk_exn ModuleNotFoundError "No module named 'pypdf'");
  pdf_extract := fun _ => Ret [];
  docx_import := Some (mk_exn ModuleNotFoundError "No module named 'docx'");
  docx_extract := fun _ => Ret [];
|}.

Definition platform : Platform := @MemPlatform engine readers.

(** [TARGET_FOLDER] *)
Definition root : path := ["srv"; "workspace"].

(** The sandbox holds two regular files and a link into the directory
    next to it, whose name starts with the name of the sandbox. *)
Definition fs : gmap path node :=
  list_to_map
    [ (["srv"], Dir);
      (["srv"; "workspace"], Dir);
      (["srv"; "workspace"; "notes.txt"], File "hello");
      (["srv"; "workspace"; "report.pdf"], File "%PDF-1.7");
      (["srv"; "workspace"; "data.db"], File "");
      (["srv"; "workspace"; "link"], Symlink "/srv/workspace2/secret.txt");
      (["srv"; "workspace2"], Dir);
      (["srv"; "workspace2"; "secret.txt"], File "top secret") ].

Definition w : world := mk_world fs ∅ 0.

End Sample.

(** ** Notions the further properties use *)

(** Whether a path leads to a regular file, links followed. *)
Definition leads_to_file (fs : gmap path node) (q : path) : bool :=
  match Fs.stat fs q with
  | Some (File _) => true
  | _ => false
  end.

(** What the import of [pypdf] and then its reader make of the bytes of a
    file, and the same for [python-docx]. *)
Definition pdf_texts {D : DocReaders} (data : string) : res (list string) :=
  match pdf_import with
  | Some e => Raise e
  | None => pdf_extract data
  end.

Definition docx_texts {D : DocReaders} (data : string) : res (list string) :=
  match docx_import with
  | Some e => Raise e
  | None => docx_extract data
  end.

(** [d.get(k)] on a dictionary kept in insertion order. *)
Fixpoint dict_get {V} (k : string) (d : list (string * V)) : option V :=
  match d with
  | [] => None
  | (k', v) :: rest => if String.eqb k k' then Some v else dict_get k rest
  end.

(** The line [inspect_sql_db] writes for one row of [PRAGMA table_info]:
    the fields 1 and 2 of the row are the name and the declared type. *)
Definition column_line (col : list sqlval) : string :=
  "  - " +:+ PyRepr.str (nth 1 col VNull) +:+ " ("
    +:+ PyRepr.str (nth 2 col VNull) +:+ ")" +:+ PyStr.nl.

(** The part of the report for one table. *)
Definition table_block (table : string) (cols : list (list sqlval)) : string :=
  (PyStr.nl +:+ "Table: " +:+ table +:+ PyStr.nl
     +:+ PyStr.repeat_str "-" 20 +:+ PyStr.nl)
    +:+ PyStr.join "" (map column_line cols).

(** The statement that lists the tables. *)
Definition catalog_query : string :=
  "SELECT name FROM sqlite_master WHERE type='table';".

(** The world while [inspect_sql_db] is at work: the connection with the
    handle [h] is on the file at [p] and sees the bytes [data], which the
    file holds; its cursor holds [rows]. *)
Definition at_work (p : path) (data : string) (h : nat)
  (rows : list (list sqlval)) (w0 w : world) : Prop :=
  w_fs w = w_fs w0 /\ w_next w = w_next w0
  /\ exists st, w_conns w = <[h := st]> (w_conns w0)
                /\ c_path st = p /\ c_view st = data /\ c_rows st = rows.

(** What SQLite is taken to answer to [PRAGMA table_info] for a table of
    the database [data]: the rows [columns table], each of three fields at
    least, and no change to the database. *)
Definition describes {E : SqlEngine} (data : string)
  (columns : string -> list (list sqlval)) (table : string) : Prop :=
  exists r,
    sqlite_step data ("PRAGMA table_info(" +:+ table +:+ ");") = ExecOk r
    /\ ex_image r = data
    /\ ex_rows r = columns table
    /\ Forall (fun col => (3 <= length col)%nat) (columns table).

(** ** A second small world, with documents and a catalogue *)

Module Office.

(** A stand-in for SQLite that knows one table, [t(id INTEGER, name TEXT)],
    answers the two statements [inspect_sql_db] sends, and rejects the
    rest.  It changes no database. *)
Definition step (image statement : string) : exec_result :=
  if String.eqb statement catalog_query then
    ExecOk (mk_exec_ok image true (Some ["name"]) [[VText "t"]] 0)
  else if String.eqb statement "PRAGMA table_info(t);" then
    ExecOk (mk_exec_ok image true
              (Some ["cid"; "name"; "type"; "notnull"; "dflt_value"; "pk"])
              [ [VInt 0; VText "id"; VText "INTEGER"; VInt 0; VNull; VInt 0];
                [VInt 1; VText "name"; VText "TEXT"; VInt 0; VNull; VInt 0] ]
              0)
  else ExecError "not understood" image.

Definition engine : SqlEngine := {| sqlite_step := step |}.

(** The rows of [PRAGMA table_info] for the table of [step]. *)
Definition columns (table : string) : list (list sqlval) :=
  [ [VInt 0; VText "id"; VText "INTEGER"; VInt 0; VNull; VInt 0];
    [VInt 1; VText "name"; VText "TEXT"; VInt 0; VNull; VInt 0] ].

(** Readers that find two pages, and two paragraphs, in any file. *)
Definition readers : DocReaders := {|
  pdf_import := None;
  pdf_extract := fun _ => Ret ["page one"; "page two"];
  docx_import := None;
  docx_extract := fun _ => Ret ["Title"; "Body"];
|}.

Definition platform : Platform := @MemPlatform engine readers.

(** [TARGET_FOLDER] *)
Definition root : path := ["srv"; "workspace"].

(** One byte that starts no UTF-8 form. *)
Definition not_text : string := String (Ascii.ascii_of_nat 255) "".

Definition fs : gmap path node :=
  list_to_map
    [ (["srv"], Dir);
      (["srv"; "workspace"], Dir);
      (["srv"; "workspace"; "scan.PDF"], File "%PDF-1.7");
      (["srv"; "workspace"; "memo.docx"], File "PK");
      (["srv"; "workspace"; "blob.bin"], File not_text);
      (["srv"; "workspace"; ".db"], File "");
      (["srv"; "workspace"; "app.db"], File "");
      (["srv"; "workspace"; "sub"], Dir) ].

Definition w : world := mk_world fs ∅ 0.

End Office.

(** ** A third small world, with a table to insert into *)

Module Shop.

(** A database image is the text of the statements that made it: the
    empty file is a database without a table, and an image that starts
    with the statement below has the table [t(id INT)].  Any other file is
    no database. *)
Definition has_table (image : string) : bool :=
  PyStr.startswith image "CREATE TABLE t(id INT);".

(** A stand-in for SQLite that lists the tables and inserts the row 7,
    giving it back through a RETURNING clause.  The INSERT runs inside the
    transaction Python opens for it. *)
Definition step (image statement : string) : exec_result :=
  if negb (String.eqb image "" || has_table image) then
    ExecError "file is not a database" image
  else if String.eqb statement catalog_query then
    ExecOk (mk_exec_ok image true (Some ["name"])
              (if has_table image then [[VText "t"]] else []) 0)
  else if String.eqb statement "INSERT INTO t VALUES (7) RETURNING id" then
    if has_table image then
      ExecOk (mk_exec_ok (image +:+ "INSERT INTO t VALUES (7);") false
                (Some ["id"]) [[VInt 7]] 1)
    else ExecError "no such table: t" image
  else ExecError "not understood" image.

Definition engine : SqlEngine := {| sqlite_step := step |}.

Definition platform : Platform := @MemPlatform engine Office.readers.

(** [TARGET_FOLDER] *)
Definition root : path := ["srv"; "workspace"].

Definition fs : gmap path node :=
  list_to_map
    [ (["srv"], Dir);
      (["srv"; "workspace"], Dir);
      (["srv"; "workspace"; "shop.db"], File "CREATE TABLE t(id INT);");
      (["srv"; "workspace"; "blank.db"], File "");
      (["srv"; "workspace"; "notes.txt"], File "hello") ].

Definition w : world := mk_world fs ∅ 0.

End Shop.

(** * Properties *)

(** ** Facts about strings *)

(** [repr] of a text with a character outside ASCII: U+00E9, which is
    printable, stays as its two bytes; U+00A0, U+2028 and U+E0001, which
    are not, are written by their code points. *)
Lemma repr_str_outside_ascii :
  let text := fold_right (fun n s => String (Ascii.ascii_of_nat n) s) "" in
  PyRepr.repr_str (text [195; 169]%nat)
  = String "'" (text [195; 169]%nat +:+ "'")
  /\ PyRepr.repr_str (text [194; 160]%nat) = "'\xa0'"
  /\ PyRepr.repr_str (text [226; 128; 168]%nat) = "'\u2028'"
  /\ PyRepr.repr_str (text [243; 160; 128; 129]%nat) = "'\U000e0001'".
Proof. repeat split; vm_compute; reflexivity. Qed.

Section StringFacts.

Lemma contains_after_last sep s :
  PyStr.contains sep (PyStr.after_last sep s) = false.
Proof.
  induction s as [|c r IH]; simpl; [done|].
  destruct (PyStr.contains sep r) eqn:Hr; [done|].
  destruct (Ascii.eqb c sep) eqn:Hc; [done|].
  simpl. by rewrite Hc.
Qed.

Lemma split_no_sep sep s :
  PyStr.contains sep s = false -> PyStr.split sep s = [s].
Proof.
  induction s as [|c r IH]; simpl; [done|].
  destruct (Ascii.eqb c sep); [done|].
  intros Hr. by rewrite IH.
Qed.

Lemma app_nil_l (s : string) : "" +:+ s = s.
Proof. reflexivity. Qed.

Lemma app_cons (c : ascii) (r s : string) :
  String c r +:+ s = String c (r +:+ s).
Proof. reflexivity. Qed.

Lemma split_app_sep sep a b :
  PyStr.contains sep a = false ->
  PyStr.split sep (a +:+ String sep b) = a :: PyStr.split sep b.
Proof.
  induction a as [|c r IH]; simpl.
  - intros _. by rewrite Ascii.eqb_refl.
  - destruct (Ascii.eqb c sep) eqn:Hc; [done|].
    intros Hr. by rewrite IH.
Qed.

Lemma split_pieces sep s :
  Forall (fun x => PyStr.contains sep x = false) (PyStr.split sep s).
Proof.
  induction s as [|c r IH]; simpl.
  - by constructor.
  - destruct (Ascii.eqb c sep) eqn:Hc.
    + by constructor.
    + destruct (PyStr.split sep r) as [|h t].
      * constructor; [|done]. simpl. by rewrite Hc.
      * inversion IH; subst. constructor; [|done]. simpl. by rewrite Hc.
Qed.

Lemma startswith_refl s : PyStr.startswith s s = true.
Proof.
  induction s as [|c r IH]; simpl; [done|].
  by rewrite Ascii.eqb_refl.
Qed.

Lemma length_app (a b : string) :
  String.length (a +:+ b) = (String.length a + String.length b)%nat.
Proof.
  induction a as [|c r IH]; [done|]. rewrite app_cons. cbn [String.length].
  by rewrite IH.
Qed.

Lemma substring_all s : String.substring 0 (String.length s) s = s.
Proof. induction s as [|c r IH]; [done|]. cbn [String.length String.substring]. by rewrite IH. Qed.

Lemma substring_tail s : forall m k,
  (m + k = String.length s)%nat ->
  exists g, s = g +:+ String.substring m k s.
Proof.
  induction s as [|c r IH]; intros m k Hlen.
  - exists "". cbn [String.length] in Hlen. by destruct m, k.
  - destruct m as [|m].
    + exists "". cbn [Nat.add] in Hlen. subst k. by rewrite substring_all.
    + cbn [String.length] in Hlen. destruct (IH m k) as [g Hg]; [lia|].
      exists (String c g). rewrite app_cons. cbn [String.substring]. by rewrite <- Hg.
Qed.

Lemma endswith_split s suf :
  PyStr.endswith s suf = true -> exists g, s = g +:+ suf.
Proof.
  unfold PyStr.endswith. destruct (Nat.leb_spec (String.length suf) (String.length s)) as [Hle|]; [|done].
  intros Heq%String.eqb_eq.
  destruct (substring_tail s (String.length s - String.length suf) (String.length suf)) as [g Hg]; [lia|].
  exists g. by rewrite Heq in Hg.
Qed.

Lemma after_last_no_sep sep s :
  PyStr.contains sep s = false -> PyStr.after_last sep s = s.
Proof.
  destruct s as [|c r]; [done|]. cbn [PyStr.contains PyStr.after_last].
  destruct (Ascii.eqb c sep); [done|]. by intros ->.
Qed.

Lemma contains_app sep a b :
  PyStr.contains sep (a +:+ b) = PyStr.contains sep a || PyStr.contains sep b.
Proof.
  induction a as [|c r IH]; [done|].
  rewrite app_cons. cbn [PyStr.contains]. by destruct (Ascii.eqb c sep).
Qed.

Lemma after_last_app sep g s :
  PyStr.contains sep s = false ->
  PyStr.after_last sep (g +:+ s) = PyStr.after_last sep g +:+ s.
Proof.
  intros Hs. induction g as [|c r IH].
  - by apply after_last_no_sep.
  - rewrite app_cons. cbn [PyStr.after_last].
    rewrite contains_app, Hs, orb_false_r.
    destruct (PyStr.contains sep r); [done|].
    by destruct (Ascii.eqb c sep).
Qed.

(** A file name with one of the database endings has a last component of
    at least that length. *)
Lemma basename_with_ending f suf :
  PyStr.contains PyStr.slash suf = false ->
  PyStr.endswith f suf = true ->
  (String.length suf <= String.length (basename f))%nat.
Proof.
  intros Hsuf [g ->]%endswith_split. unfold basename.
  rewrite after_last_app, length_app by done. lia.
Qed.

Lemma empty_component_ending f :
  basename f = "" \/ basename f = "." ->
  PyStr.endswith f ".db" || PyStr.endswith f ".sqlite" = false.
Proof.
  intros Hb. apply orb_false_intro.
  - destruct (PyStr.endswith f ".db") eqn:He; [|done].
    apply basename_with_ending in He; [|done].
    by destruct Hb as [Hb|Hb]; rewrite Hb in He; cbn [String.length] in He; lia.
  - destruct (PyStr.endswith f ".sqlite") eqn:He; [|done].
    apply basename_with_ending in He; [|done].
    by destruct Hb as [Hb|Hb]; rewrite Hb in He; cbn [String.length] in He; lia.
Qed.
End StringFacts.

(** ** Resolved paths *)

Section PathFacts.

Lemma basename_no_slash f : PyStr.contains PyStr.slash (basename f) = false.
Proof. apply contains_after_last. Qed.

Lemma startswith_slash_no_slash s :
  PyStr.contains PyStr.slash s = false -> PyStr.startswith s "/" = false.
Proof.
  destruct s as [|c r]; [done|]. cbn [PyStr.startswith PyStr.contains].
  rewrite (Ascii.eqb_sym "/" c).
  change "/"%char with PyStr.slash.
  by destruct (Ascii.eqb c PyStr.slash).
Qed.

Lemma joinpath_one base s :
  PyStr.contains PyStr.slash s = false ->
  joinpath base s = if bool_decide (s = "" \/ s = ".") then base else base ++ [s].
Proof.
  intros Hs. unfold joinpath, parse_parts.
  rewrite startswith_slash_no_slash, split_no_sep by done.
  rewrite filter_cons, filter_nil.
  case_bool_decide as Hd; case_decide as Hd'.
  - tauto.
  - by rewrite app_nil_r.
  - done.
  - destruct Hd'. split; intros ->; tauto.
Qed.

Lemma split_join p :
  p <> [] -> Forall (fun x => PyStr.contains PyStr.slash x = false) p ->
  PyStr.split PyStr.slash (PyStr.join "/" p) = p.
Proof.
  induction p as [|a [|b r] IH]; [done| |]; intros _ Hp.
  - simpl. apply split_no_sep. by inversion Hp.
  - inversion Hp as [|? ? Ha Hr]; subst.
    change (PyStr.join "/" (a :: b :: r))
      with (a +:+ String PyStr.slash (PyStr.join "/" (b :: r))).
    rewrite split_app_sep by done. f_equal. by apply IH.
Qed.

Lemma split_str_path p :
  Forall (fun x => PyStr.contains PyStr.slash x = false) p ->
  PyStr.split PyStr.slash (str_path p)
  = "" :: match p with [] => [""] | _ => p end.
Proof.
  intros Hp. unfold str_path.
  change ("/" +:+ PyStr.join "/" p) with (String PyStr.slash (PyStr.join "/" p)).
  cbn [PyStr.split]. rewrite Ascii.eqb_refl. f_equal.
  destruct p as [|a r]; [done|]. by apply split_join.
Qed.

Lemma startswith_str_path p : PyStr.startswith (str_path p) "/" = true.
Proof. reflexivity. Qed.

Lemma canonical_no_slash fs p :
  canonical fs p -> Forall (fun x => PyStr.contains PyStr.slash x = false) p.
Proof.
  induction 1 as [|p nm _ IH (_ & _ & _ & Hn) _]; [constructor|].
  apply Forall_app. split; [done|]. by constructor.
Qed.

Lemma canonical_app_inv fs a b : canonical fs (a ++ b) -> canonical fs a.
Proof.
  revert a. induction b as [|x b IH] using rev_ind; intros a H.
  - by rewrite app_nil_r in H.
  - rewrite app_assoc in H. inversion H as [Hnil | p nm Hp Hnm Hl Heq].
    + by destruct (a ++ b).
    + apply app_inj_tail in Heq as [-> ->]. by apply IH.
Qed.

Lemma canonical_last_inv fs a nm :
  canonical fs (a ++ [nm]) -> plain nm /\ no_link fs (a ++ [nm]).
Proof.
  intros H. inversion H as [Hnil | p nm' Hp Hnm Hl Heq].
  - by destruct a.
  - apply app_inj_tail in Heq as [-> ->]. done.
Qed.

Lemma canonical_removelast fs p : canonical fs p -> canonical fs (removelast p).
Proof.
  intros H. inversion H as [|q nm Hq _ _]; [constructor|].
  by rewrite removelast_last.
Qed.

Lemma canonical_ext fs fs' p :
  (forall q t, fs' !! q = Some (Symlink t) -> fs !! q = Some (Symlink t)) ->
  canonical fs p -> canonical fs' p.
Proof.
  intros Hext. induction 1 as [|p nm _ IH Hnm Hl]; constructor; try done.
  intros t Ht. by apply (Hl t), Hext.
Qed.

(** Walking over the components of a resolved path changes nothing. *)
Lemma walk_canonical follow fs rest : forall cur,
  canonical fs (cur ++ rest) ->
  Fs.walk follow fs cur rest = Some (cur ++ rest).
Proof.
  induction rest as [|nm rest IH]; intros cur H; simpl.
  - by rewrite app_nil_r.
  - replace (cur ++ nm :: rest) with ((cur ++ [nm]) ++ rest) in *
      by (by rewrite <- app_assoc).
    pose proof (canonical_app_inv _ _ _ H) as H1.
    apply canonical_last_inv in H1 as [(Hn1 & Hn2 & Hn3 & _) Hl].
    rewrite bool_decide_eq_false_2 by tauto.
    rewrite bool_decide_eq_false_2 by done.
    destruct (fs !! (cur ++ [nm])) as [[| |t]|] eqn:Hlook; try by apply IH.
    by destruct (Hl t).
Qed.

Lemma realpath_canonical fs p : canonical fs p -> Fs.realpath fs p = Some p.
Proof.
  intros H. unfold Fs.realpath. cbn [Fs.joinrealpath].
  rewrite startswith_str_path, split_str_path by eauto using canonical_no_slash.
  cbn [Fs.walk]. rewrite bool_decide_eq_true_2 by (by left).
  destruct p as [|a r].
  - cbn [Fs.walk]. by rewrite bool_decide_eq_true_2 by (by left).
  - by apply (walk_canonical _ fs (a :: r) []).
Qed.

(** What a walk returns is resolved, when what following a link returns
    is. *)
Lemma walk_result_canonical follow fs :
  (forall dir t r, canonical fs dir -> follow dir t = Some r -> canonical fs r) ->
  forall rest cur p,
    Forall (fun x => PyStr.contains PyStr.slash x = false) rest ->
    canonical fs cur ->
    Fs.walk follow fs cur rest = Some p -> canonical fs p.
Proof.
  intros Hf. induction rest as [|nm rest IH]; intros cur p Hrest Hcur; simpl.
  - by intros [= <-].
  - inversion Hrest as [|? ? Hnm Hrest']; subst.
    case_bool_decide as H1; [by apply IH|].
    case_bool_decide as H2; [apply IH; eauto using canonical_removelast|].
    assert (plain nm) as Hp by (unfold plain; tauto).
    destruct (fs !! (cur ++ [nm])) as [[| |t]|] eqn:Hlook.
    + apply IH; [done|]. constructor; try done. intros t. by rewrite Hlook.
    + apply IH; [done|]. constructor; try done. intros t. by rewrite Hlook.
    + destruct (follow cur t) as [r|] eqn:Hfol; [|done].
      apply IH; eauto.
    + apply IH; [done|]. constructor; try done. intros t. by rewrite Hlook.
Qed.

Lemma joinrealpath_result_canonical fs d : forall cur rest p,
  canonical fs cur ->
  Fs.joinrealpath d fs cur rest = Some p -> canonical fs p.
Proof.
  induction d as [|d IH]; intros cur rest p Hcur; cbn [Fs.joinrealpath]; [done|].
  apply walk_result_canonical.
  - intros dir t r Hdir. by apply IH.
  - apply split_pieces.
  - destruct (PyStr.startswith rest "/"); [constructor | done].
Qed.

Lemma realpath_result_canonical fs x p :
  Fs.realpath fs x = Some p -> canonical fs p.
Proof. apply joinrealpath_result_canonical. constructor. Qed.

Lemma stat_canonical fs p : canonical fs p -> Fs.stat fs p = fs !! p.
Proof. intros H. unfold Fs.stat. by rewrite realpath_canonical. Qed.

End PathFacts.

(** ** Resolution after a write *)

Section ResolveStable.

Lemma walk_ext follow follow' fs fs' :
  (forall q, link_of fs q = link_of fs' q) ->
  (forall dir t r, follow dir t = Some r -> follow' dir t = Some r) ->
  forall rest cur p,
    Fs.walk follow fs cur rest = Some p -> Fs.walk follow' fs' cur rest = Some p.
Proof.
  intros Hl Hf. induction rest as [|nm rest IH]; intros cur p; cbn [Fs.walk];
    [done|].
  case_bool_decide; [by apply IH|].
  case_bool_decide; [by apply IH|].
  pose proof (Hl (cur ++ [nm])) as Hq. unfold link_of in Hq.
  destruct (fs !! (cur ++ [nm])) as [[| |t]|];
    destruct (fs' !! (cur ++ [nm])) as [[| |t']|]; simplify_eq; try by apply IH.
  destruct (follow cur t') as [r|] eqn:Hr; [|done].
  rewrite (Hf _ _ _ Hr). by apply IH.
Qed.

Lemma joinrealpath_ext fs fs' :
  (forall q, link_of fs q = link_of fs' q) ->
  forall d d' cur rest p,
    (d <= d')%nat ->
    Fs.joinrealpath d fs cur rest = Some p ->
    Fs.joinrealpath d' fs' cur rest = Some p.
Proof.
  intros Hl. induction d as [|d IH]; intros d' cur rest p Hd;
    cbn [Fs.joinrealpath]; [done|].
  destruct d' as [|d']; [lia|]. cbn [Fs.joinrealpath].
  apply walk_ext; [done|]. intros dir t r. apply IH. lia.
Qed.

(** Making or rewriting a regular file where no link is leaves every
    resolution as it was. *)
Lemma realpath_insert_file fs q data x p :
  link_of fs q = None ->
  Fs.realpath fs x = Some p ->
  Fs.realpath (<[q := File data]> fs) x = Some p.
Proof.
  intros Hq. unfold Fs.realpath. apply joinrealpath_ext.
  - intros q'. unfold link_of. destruct (decide (q = q')) as [<-|Hne].
    + rewrite lookup_insert_eq. exact Hq.
    + by rewrite lookup_insert_ne.
  - rewrite map_size_insert. destruct (fs !! q); simpl; lia.
Qed.

Lemma canonical_link_of fs p : canonical fs p -> p <> [] -> link_of fs p = None.
Proof.
  intros H Hne. unfold link_of. inversion H as [|q nm _ _ Hl]; subst; [done|].
  destruct (fs !! (q ++ [nm])) as [[| |t]|] eqn:E; try done. by destruct (Hl t).
Qed.

Lemma canonical_insert_file fs q data p :
  canonical fs p -> canonical (<[q := File data]> fs) p.
Proof.
  apply canonical_ext. intros q' t. destruct (decide (q = q')) as [<-|Hne].
  - by rewrite lookup_insert_eq.
  - by rewrite lookup_insert_ne.
Qed.

End ResolveStable.

(** ** The monad *)

Section MonadFacts.
Context {W A B : Type}.

Lemma bind_ret (m : M W A) (k : A -> M W B) w a w' :
  m w = (Ret a, w') -> bind m k w = k a w'.
Proof. unfold bind. by intros ->. Qed.

Lemma bind_raise (m : M W A) (k : A -> M W B) w e w' :
  m w = (Raise e, w') -> bind m k w = (Raise e, w').
Proof. unfold bind. by intros ->. Qed.

Lemma try_ret (m : M W A) hs w a w' :
  m w = (Ret a, w') -> try_ m hs w = (Ret a, w').
Proof. unfold try_. by intros ->. Qed.

Lemma isinstance_Exception e : isinstance e Exception = true.
Proof. unfold isinstance. by destruct (exn_cls e). Qed.

Lemma try_raise_Exception (m : M W A) h w e w' :
  m w = (Raise e, w') -> try_ m [(Exception, h)] w = h e w'.
Proof.
  unfold try_. intros ->. cbn [find_handler]. by rewrite isinstance_Exception.
Qed.

(** A [try] whose handler for [Exception] returns a value lets no
    exception through. *)
Lemma try_total (m : M W A) (h : exn -> A) w :
  exists a w', try_ m [(Exception, fun e => ret (h e))] w = (Ret a, w').
Proof.
  destruct (m w) as [[a|e] w'] eqn:Hm.
  - exists a, w'. by apply try_ret.
  - exists (h e), w'. by rewrite (try_raise_Exception _ _ _ _ _ Hm).
Qed.
End MonadFacts.

(** ** The resolver on the in-memory platform *)

Section Concrete.
Context {E : SqlEngine} {D : DocReaders}.
(** [T] stands for [TARGET_FOLDER]. *)
Variable T : path.

Lemma get_safe_path_unfold f (w : world) :
  _get_safe_path T f w =
  match Fs.realpath (w_fs w) (joinpath T (basename f)) with
  | Some q =>
      if PyStr.startswith (str_path q) (str_path T) then (Ret q, w)
      else (Raise (mk_exn ValueError
                     ("Access denied: " +:+ f
                        +:+ " is outside the allowed directory.")), w)
  | None =>
      (Raise (mk_exn RuntimeError
                ("Symlink loop from "
                   +:+ PyRepr.repr_str (str_path (joinpath T (basename f))))), w)
  end.
Proof.
  unfold _get_safe_path, bind. cbn [path_resolve MemPlatform]. unfold Mem.resolve.
  destruct (Fs.realpath (w_fs w) (joinpath T (basename f))) as [q|]; [|done].
  by destruct (PyStr.startswith (str_path q) (str_path T)).
Qed.

Lemma get_safe_path_inv f (w w' : world) p :
  _get_safe_path T f w = (Ret p, w') ->
  w' = w /\ Fs.realpath (w_fs w) (joinpath T (basename f)) = Some p
  /\ PyStr.startswith (str_path p) (str_path T) = true
  /\ canonical (w_fs w) p.
Proof.
  rewrite get_safe_path_unfold.
  destruct (Fs.realpath (w_fs w) (joinpath T (basename f))) as [q|] eqn:Hq; [|done].
  destruct (PyStr.startswith (str_path q) (str_path T)) eqn:Hs; [|done].
  intros [= -> ->]. eauto using realpath_result_canonical.
Qed.

Lemma get_safe_path_root f (w : world) :
  basename f = "" \/ basename f = "." ->
  canonical (w_fs w) T ->
  _get_safe_path T f w = (Ret T, w).
Proof.
  intros Hb HT. rewrite get_safe_path_unfold.
  rewrite joinpath_one by apply basename_no_slash.
  rewrite bool_decide_eq_true_2 by done.
  rewrite realpath_canonical by done. by rewrite startswith_refl.
Qed.
End Concrete.

(** ** Reading and writing on the in-memory platform *)

Section ConcreteTools.
Context {E : SqlEngine} {D : DocReaders}.
(** [T] stands for [TARGET_FOLDER]. *)
Variable T : path.

Lemma elem_guarded_false s :
  PyStr.elem s guarded_suffixes = false ->
  String.eqb s ".pdf" = false /\ String.eqb s ".docx" = false.
Proof.
  unfold PyStr.elem, guarded_suffixes. cbn [existsb].
  intros H. apply orb_false_elim in H as [H1 H].
  apply orb_false_elim in H as [H2 _]. done.
Qed.

Lemma exists_resolved (w : world) p :
  canonical (w_fs w) p ->
  path_exists p w = (Ret (bool_decide (is_Some (w_fs w !! p))), w).
Proof.
  intros Hp. cbn [path_exists MemPlatform]. unfold Mem.exists_.
  by rewrite stat_canonical.
Qed.

Lemma read_bytes_resolved fs p :
  canonical fs p ->
  Fs.read_bytes fs p =
  match fs !! p with
  | Some (File data) => Ret data
  | Some Dir => Raise (Fs.EISDIR p)
  | Some (Symlink _) => Raise (Fs.ELOOP p)
  | None =>
      match Fs.missing_parent fs p p with
      | Some e => Raise e
      | None => Raise (Fs.ENOENT p)
      end
  end.
Proof. intros Hp. unfold Fs.read_bytes. by rewrite realpath_canonical. Qed.

Lemma write_bytes_resolved fs p mode content :
  canonical fs p ->
  Fs.write_bytes fs p mode content =
  match fs !! p with
  | Some (File data) =>
      Ret (<[p := File (if String.eqb mode "a" then data +:+ content
                        else content)]> fs)
  | Some Dir => Raise (Fs.EISDIR p)
  | Some (Symlink _) => Raise (Fs.ELOOP p)
  | None =>
      match Fs.missing_parent fs p p with
      | Some e => Raise e
      | None => Ret (<[p := File content]> fs)
      end
  end.
Proof. intros Hp. unfold Fs.write_bytes. by rewrite realpath_canonical. Qed.

Lemma safe_path_canonical f (w w' : world) p :
  _get_safe_path T f w = (Ret p, w') -> canonical (w_fs w) p.
Proof. intros H. by destruct (get_safe_path_inv _ _ _ _ _ H) as (_ & _ & _ & ?). Qed.

(** Reading what is a directory. *)
Lemma read_file_dir f (w : world) p :
  _get_safe_path T f w = (Ret p, w) ->
  w_fs w !! p = Some Dir ->
  PyStr.elem (PyStr.lower (suffix p)) guarded_suffixes = false ->
  read_file T f w = (Ret ("Error: " +:+ exn_str (Fs.EISDIR p)), w).
Proof.
  intros Hsafe Hdir Hsuf. pose proof (safe_path_canonical _ _ _ _ Hsafe) as Hcan.
  apply elem_guarded_false in Hsuf as [Hpdf Hdocx].
  unfold read_file.
  erewrite try_raise_Exception; [reflexivity|].
  erewrite bind_ret by exact Hsafe.
  erewrite bind_ret by (by apply exists_resolved).
  rewrite Hdir, bool_decide_eq_true_2 by eauto. cbn [negb].
  rewrite Hpdf, Hdocx. unfold try_.
  cbn [open_read MemPlatform]. unfold Mem.read_text.
  rewrite read_bytes_resolved, Hdir by done. reflexivity.
Qed.

(** Reading a regular file of text. *)
Lemma read_file_text f (w : world) p data :
  _get_safe_path T f w = (Ret p, w) ->
  w_fs w !! p = Some (File data) ->
  PyStr.elem (PyStr.lower (suffix p)) guarded_suffixes = false ->
  Utf8.valid data = true ->
  read_file T f w = (Ret (Utf8.universal_newlines data), w).
Proof.
  intros Hsafe Hfile Hsuf Hvalid.
  pose proof (safe_path_canonical _ _ _ _ Hsafe) as Hcan.
  apply elem_guarded_false in Hsuf as [Hpdf Hdocx].
  unfold read_file.
  erewrite try_ret; [reflexivity|].
  erewrite bind_ret by exact Hsafe.
  erewrite bind_ret by (by apply exists_resolved).
  rewrite Hfile, bool_decide_eq_true_2 by eauto. cbn [negb].
  rewrite Hpdf, Hdocx. unfold try_.
  cbn [open_read MemPlatform]. unfold Mem.read_text.
  by rewrite read_bytes_resolved, Hfile, Hvalid by done.
Qed.

(** Writing to what is there and has a guarded suffix. *)
Lemma write_guarded f content mode (w : world) p :
  _get_safe_path T f w = (Ret p, w) ->
  is_Some (w_fs w !! p) ->
  PyStr.elem (PyStr.lower (suffix p)) guarded_suffixes = true ->
  write_to_file T f content mode w
  = (Ret "Error: Cannot write text directly to binary/database files.", w).
Proof.
  intros Hsafe Hsome Hsuf. pose proof (safe_path_canonical _ _ _ _ Hsafe) as Hcan.
  unfold write_to_file.
  erewrite try_ret; [reflexivity|].
  erewrite bind_ret by exact Hsafe.
  erewrite bind_ret by (by apply exists_resolved).
  by rewrite bool_decide_eq_true_2, Hsuf by done.
Qed.

(** Writing where the guard does not apply. *)
Lemma write_unguarded f content mode (w : world) p :
  _get_safe_path T f w = (Ret p, w) ->
  bool_decide (is_Some (w_fs w !! p))
    && PyStr.elem (PyStr.lower (suffix p)) guarded_suffixes = false ->
  write_to_file T f content mode w =
  match Fs.write_bytes (w_fs w) p (if String.eqb mode "a" then "a" else "w")
          content with
  | Ret fs' => (Ret ("âœ… Successfully wrote to " +:+ f), Mem.with_fs w fs')
  | Raise e => (Ret ("Error: " +:+ exn_str e), w)
  end.
Proof.
  intros Hsafe Hguard. pose proof (safe_path_canonical _ _ _ _ Hsafe) as Hcan.
  unfold write_to_file.
  destruct (Fs.write_bytes (w_fs w) p _ content) as [fs'|e] eqn:Hw.
  - erewrite try_ret; [reflexivity|].
    erewrite bind_ret by exact Hsafe.
    erewrite bind_ret by (by apply exists_resolved).
    rewrite Hguard.
    erewrite bind_ret; [reflexivity|].
    cbn [open_write MemPlatform]. unfold Mem.write_text. by rewrite Hw.
  - erewrite try_raise_Exception; [reflexivity|].
    erewrite bind_ret by exact Hsafe.
    erewrite bind_ret by (by apply exists_resolved).
    rewrite Hguard.
    erewrite bind_raise; [reflexivity|].
    cbn [open_write MemPlatform]. unfold Mem.write_text. by rewrite Hw.
Qed.

(** A path that resolved still resolves, to the same place, after a
    regular file was written where no link is. *)
Lemma get_safe_path_after_write f (w w1 : world) p q data :
  _get_safe_path T f w = (Ret p, w) ->
  link_of (w_fs w) q = None ->
  w_fs w1 = <[q := File data]> (w_fs w) ->
  _get_safe_path T f w1 = (Ret p, w1).
Proof.
  intros Hsafe Hq Hfs.
  destruct (get_safe_path_inv _ _ _ _ _ Hsafe) as (_ & Hreal & Hpre & _).
  rewrite get_safe_path_unfold, Hfs.
  by rewrite (realpath_insert_file _ _ _ _ _ Hq Hreal), Hpre.
Qed.

End ConcreteTools.

(** ** Confinement *)

Section Confinement.
Context {E : SqlEngine} {D : DocReaders}.
(** [T] stands for [TARGET_FOLDER]. *)
Variable T : path.

Lemma startswith_length s : forall pre,
  PyStr.startswith s pre = true -> (String.length pre <= String.length s)%nat.
Proof.
  induction s as [|c r IH]; intros [|a pre]; cbn [PyStr.startswith String.length];
    try done; try lia.
  intros [_ H]%andb_true_iff. apply IH in H. lia.
Qed.

Lemma join_snoc_length r nm :
  nm <> "" ->
  (String.length (PyStr.join "/" r) < String.length (PyStr.join "/" (r ++ [nm])))%nat.
Proof.
  intros Hnm. assert (0 < String.length nm)%nat as Hlen.
  { destruct nm; [done|]. cbn [String.length]. lia. }
  induction r as [|a [|b r] IH].
  - done.
  - change (PyStr.join "/" ([a] ++ [nm])) with (a +:+ "/" +:+ nm).
    cbn [PyStr.join]. rewrite !length_app. lia.
  - change (PyStr.join "/" ((a :: b :: r) ++ [nm]))
      with (a +:+ "/" +:+ PyStr.join "/" ((b :: r) ++ [nm])).
    change (PyStr.join "/" (a :: b :: r))
      with (a +:+ "/" +:+ PyStr.join "/" (b :: r)).
    rewrite !length_app. lia.
Qed.

(** The parent of a resolved path other than the root fails the test. *)
Lemma parent_fails_check fs p :
  canonical fs p -> p <> [] ->
  PyStr.startswith (str_path (removelast p)) (str_path p) = false.
Proof.
  intros Hcan Hne. inversion Hcan as [|r nm _ (Hnm & _) _]; subst; [done|].
  rewrite removelast_last.
  destruct (PyStr.startswith _ _) eqn:Hs; [|done].
  apply startswith_length in Hs. unfold str_path in Hs.
  rewrite !length_app in Hs. pose proof (join_snoc_length r nm Hnm). lia.
Qed.

Lemma walk_app follow fs a : forall cur b,
  Fs.walk follow fs cur (a ++ b)
  = match Fs.walk follow fs cur a with
    | Some mid => Fs.walk follow fs mid b
    | None => None
    end.
Proof.
  induction a as [|nm a IH]; intros cur b; [done|].
  cbn [app Fs.walk]. repeat case_bool_decide; try apply IH.
  destruct (fs !! (cur ++ [nm])) as [[| |t]|]; try apply IH.
  destruct (follow cur t); [apply IH | done].
Qed.

Lemma realpath_snoc fs p nm :
  canonical fs p ->
  PyStr.contains PyStr.slash nm = false ->
  Fs.realpath fs (p ++ [nm])
  = Fs.walk (fun dir target => Fs.joinrealpath (size fs) fs dir target) fs p [nm].
Proof.
  intros Hcan Hnm. unfold Fs.realpath. cbn [Fs.joinrealpath].
  rewrite startswith_str_path, split_str_path.
  2:{ apply Forall_app. split; [by eapply canonical_no_slash|by constructor]. }
  cbn [Fs.walk]. rewrite bool_decide_eq_true_2 by (by left).
  replace (match p ++ [nm] with [] => [""] | _ :: _ => p ++ [nm] end)
    with (p ++ [nm]) by (by destruct p).
  by rewrite walk_app, (walk_canonical _ fs p []).
Qed.

(** Whatever [_get_safe_path] returns passed the test on the strings. *)
Lemma get_safe_path_string_prefix f (w w' : world) p :
  _get_safe_path T f w = (Ret p, w') ->
  PyStr.startswith (str_path p) (str_path T) = true.
Proof. intros H. by destruct (get_safe_path_inv T _ _ _ _ H) as (_ & _ & ? & _). Qed.

(** X1: where the name is not that of a link in the sandbox, what
    [_get_safe_path] returns is the root or lies below it. *)
Lemma get_safe_path_inside_without_link f (w w' : world) p :
  Fs.realpath (w_fs w) T = Some T ->
  no_link (w_fs w) (T ++ [basename f]) ->
  _get_safe_path T f w = (Ret p, w') ->
  inside T p.
Proof.
  intros HT Hnl Hsafe. pose proof (realpath_result_canonical _ _ _ HT) as Hcan.
  destruct (get_safe_path_inv T _ _ _ _ Hsafe) as (_ & Hreal & Hpre & _).
  pose proof (basename_no_slash f) as Hslash.
  rewrite joinpath_one in Hreal by done.
  case_bool_decide as Hb.
  - rewrite HT in Hreal. injection Hreal as <-. exists []. by rewrite app_nil_r.
  - rewrite realpath_snoc in Hreal by done. cbn [Fs.walk] in Hreal.
    rewrite bool_decide_eq_false_2 in Hreal by done.
    case_bool_decide as Hdots.
    + injection Hreal as <-. destruct T as [|a r] eqn:HeqT; [by exists []|].
      rewrite <- HeqT in *.
      rewrite (parent_fails_check (w_fs w)) in Hpre; [done|done|by subst].
    + destruct (w_fs w !! (T ++ [basename f])) as [[| |t]|] eqn:Hlook;
        try (injection Hreal as <-; by eexists).
      by destruct (Hnl t).
Qed.

End Confinement.

(** C1: with a link in the sandbox to a file in a directory whose name
    starts with the name of the sandbox, [_get_safe_path] returns the path
    of that file: the string test passes although the path is neither the
    root nor below it, and [read_file] hands out the content. *)
Theorem get_safe_path_sibling_escape :
  _get_safe_path (P := Sample.platform) Sample.root "link" Sample.w
  = (Ret ["srv"; "workspace2"; "secret.txt"], Sample.w)
  /\ PyStr.startswith (str_path ["srv"; "workspace2"; "secret.txt"])
       (str_path Sample.root) = true
  /\ ~ inside Sample.root ["srv"; "workspace2"; "secret.txt"]
  /\ read_file (P := Sample.platform) Sample.root "link" Sample.w
     = (Ret "top secret", Sample.w).
Proof.
  split; [vm_compute; reflexivity|]. split; [vm_compute; reflexivity|]. split.
  - intros [rest Hrest]. unfold Sample.root in Hrest. simplify_eq.
  - vm_compute. reflexivity.
Qed.

(** ** UTF-8 and newlines *)

Section Utf8Facts.

Lemma valid_app x : forall y,
  Utf8.valid x = true -> Utf8.valid y = true -> Utf8.valid (x +:+ y) = true.
Proof.
  remember (String.length x) as n eqn:Hn. revert x Hn.
  induction n as [n IH] using lt_wf_ind. intros x -> y Hx Hy.
  assert (forall r, (String.length r < String.length x)%nat ->
            Utf8.valid r = true -> Utf8.valid (r +:+ y) = true) as Hrec.
  { intros r Hlt Hr. by eapply IH. }
  clear IH. destruct x as [|b0 r]; [done|].
  rewrite app_cons. cbn [Utf8.valid String.length] in *.
  destruct (Ascii.nat_of_ascii b0 <? 128)%nat.
  { apply Hrec; [lia|done]. }
  destruct (Utf8.in_range 194 223 b0).
  { destruct r as [|b1 r1]; [done|]. rewrite app_cons.
    apply andb_true_iff in Hx as [-> Hx]. cbn [andb String.length] in *.
    apply Hrec; [lia|done]. }
  destruct (Utf8.in_range 224 239 b0).
  { destruct r as [|b1 [|b2 r2]]; [done..|]. rewrite !app_cons.
    apply andb_true_iff in Hx as [-> Hx]. cbn [andb String.length] in *.
    apply Hrec; [lia|done]. }
  destruct (Utf8.in_range 240 244 b0); [|done].
  destruct r as [|b1 [|b2 [|b3 r3]]]; [done..|]. rewrite !app_cons.
  apply andb_true_iff in Hx as [-> Hx]. cbn [andb String.length] in *.
  apply Hrec; [lia|done].
Qed.

Lemma universal_newlines_no_cr s :
  PyStr.contains Utf8.CR s = false -> Utf8.universal_newlines s = s.
Proof.
  induction s as [|c r IH]; [done|].
  cbn [PyStr.contains Utf8.universal_newlines].
  destruct (Ascii.eqb c Utf8.CR); [done|]. intros Hr. by rewrite IH.
Qed.

End Utf8Facts.

(** ** The tool boundary *)

Section Boundary.
Context {P : Platform}.
(** [T] stands for [TARGET_FOLDER]. *)
Variable T : path.

(** C2: on every platform, whatever its calls return or raise, each of
    the seven tools returns a string. *)
Theorem tools_return_a_string :
  (forall w, exists s w', list_files T w = (Ret s, w'))
  /\ (forall f w, exists s w', read_file T f w = (Ret s, w'))
  /\ (forall f c m w, exists s w', write_to_file T f c m w = (Ret s, w'))
  /\ (forall f w, exists s w', delete_file T f w = (Ret s, w'))
  /\ (forall f w, exists s w', create_sql_db T f w = (Ret s, w'))
  /\ (forall f w, exists s w', inspect_sql_db T f w = (Ret s, w'))
  /\ (forall f q w, exists s w', run_sql_query T f q w = (Ret s, w')).
Proof.
  repeat split; intros.
  - apply try_total.
  - apply try_total.
  - apply try_total.
  - apply try_total.
  - unfold create_sql_db.
    destruct (negb _); [by eexists _, _ | apply try_total].
  - apply try_total.
  - apply try_total.
Qed.
End Boundary.

(** ** Names that denote the root *)

Section RootComponent.
Context {E : SqlEngine} {D : DocReaders}.
(** [T] stands for [TARGET_FOLDER]. *)
Variable T : path.

Lemma removelast_name (p : path) : p <> [] -> removelast p ++ [name p] = p.
Proof. intros Hp. unfold name. symmetry. by apply app_removelast_last. Qed.

Lemma remove_dir fs p :
  canonical fs p -> fs !! p = Some Dir -> Fs.remove fs p = Raise (Fs.EISDIR p).
Proof.
  intros Hcan Hdir. unfold Fs.remove. destruct p as [|a r] eqn:Hp; [done|].
  rewrite <- Hp in *. assert (p <> []) as Hne by (by subst).
  rewrite realpath_canonical by (by apply canonical_removelast).
  by rewrite removelast_name, Hdir.
Qed.

Lemma connect_dir (w : world) p :
  canonical (w_fs w) p -> w_fs w !! p = Some Dir ->
  sqlite3_connect p w = (Raise Mem.cannot_open, w).
Proof.
  intros Hcan Hdir. cbn [sqlite3_connect MemPlatform]. unfold Mem.connect.
  by rewrite realpath_canonical, Hdir.
Qed.

(** C9: a file name whose last component is empty or ["."] resolves to the
    sandbox root and passes the check; reading, writing, deleting,
    inspecting and querying then fail on the directory, none with an
    access-denied message.  [create_sql_db] turns such a name down for its
    ending and resolves nothing. *)
Theorem empty_component_is_root f (w : world) :
  basename f = "" \/ basename f = "." ->
  Fs.realpath (w_fs w) T = Some T ->
  w_fs w !! T = Some Dir ->
  PyStr.elem (PyStr.lower (suffix T)) guarded_suffixes = false ->
  _get_safe_path T f w = (Ret T, w)
  /\ read_file T f w = (Ret ("Error: " +:+ exn_str (Fs.EISDIR T)), w)
  /\ (forall c m,
        write_to_file T f c m w = (Ret ("Error: " +:+ exn_str (Fs.EISDIR T)), w))
  /\ delete_file T f w
     = (Ret ("Error deleting file: " +:+ exn_str (Fs.EISDIR T)), w)
  /\ inspect_sql_db T f w = (Ret "Error: unable to open database file", w)
  /\ (forall q,
        run_sql_query T f q w
        = (Ret "System Error: unable to open database file", w))
  /\ create_sql_db T f w
     = (Ret "Error: Database filename must end with .db or .sqlite", w).
Proof.
  intros Hb Hreal Hdir Hsuf.
  pose proof (realpath_result_canonical _ _ _ Hreal) as Hcan.
  pose proof (get_safe_path_root T f w Hb Hcan) as Hsafe.
  split; [done|]. split; [by apply read_file_dir|].
  split; [|split; [|split; [|split]]].
  - intros c m. rewrite (write_unguarded T f c m w T Hsafe).
    + by rewrite write_bytes_resolved, Hdir.
    + rewrite Hsuf. apply andb_false_r.
  - unfold delete_file.
    erewrite try_raise_Exception; [reflexivity|].
    erewrite bind_ret by exact Hsafe.
    erewrite bind_ret by (by apply exists_resolved).
    rewrite Hdir, bool_decide_eq_true_2 by eauto. cbn [negb].
    erewrite bind_raise; [reflexivity|].
    cbn [os_remove MemPlatform]. unfold Mem.remove. by rewrite remove_dir.
  - unfold inspect_sql_db.
    rewrite (try_raise_Exception _ _ w Mem.cannot_open w); [reflexivity|].
    erewrite bind_ret by exact Hsafe.
    erewrite bind_ret by (by apply exists_resolved).
    rewrite Hdir, bool_decide_eq_true_2 by eauto. cbn [negb].
    erewrite bind_raise; [reflexivity|]. by apply connect_dir.
  - intros q. unfold run_sql_query.
    rewrite (try_raise_Exception _ _ w Mem.cannot_open w); [reflexivity|].
    erewrite bind_ret by exact Hsafe.
    erewrite bind_raise; [reflexivity|]. by apply connect_dir.
  - unfold create_sql_db. by rewrite empty_component_ending.
Qed.
End RootComponent.

(** ** Writing and reading back *)

Section WriteRead.
Context {E : SqlEngine} {D : DocReaders}.
(** [T] stands for [TARGET_FOLDER]. *)
Variable T : path.

Lemma regular_or_new_link_of fs p : regular_or_new fs p -> link_of fs p = None.
Proof. unfold link_of. by intros [[d ->] | [-> _]]. Qed.

(** Writing with a mode other than ["a"] to a regular file, or to a path
    where a file can be made, leaves exactly the content there. *)
Lemma write_overwrite f content mode (w : world) p :
  mode <> "a" ->
  _get_safe_path T f w = (Ret p, w) ->
  regular_or_new (w_fs w) p ->
  PyStr.elem (PyStr.lower (suffix p)) guarded_suffixes = false ->
  write_to_file T f content mode w
  = (Ret ("âœ… Successfully wrote to " +:+ f),
     Mem.with_fs w (<[p := File content]> (w_fs w))).
Proof.
  intros Hmode Hsafe Hreg Hsuf.
  pose proof (safe_path_canonical T _ _ _ _ Hsafe) as Hcan.
  rewrite (write_unguarded T f content mode w p Hsafe)
    by (rewrite Hsuf; apply andb_false_r).
  rewrite write_bytes_resolved by done.
  apply String.eqb_neq in Hmode. rewrite Hmode.
  by destruct Hreg as [[d ->] | [-> ->]].
Qed.

(** Writing with mode ["a"] to a regular file puts the content after what
    is there. *)
Lemma write_append f content (w : world) p data :
  _get_safe_path T f w = (Ret p, w) ->
  w_fs w !! p = Some (File data) ->
  PyStr.elem (PyStr.lower (suffix p)) guarded_suffixes = false ->
  write_to_file T f content "a" w
  = (Ret ("âœ… Successfully wrote to " +:+ f),
     Mem.with_fs w (<[p := File (data +:+ content)]> (w_fs w))).
Proof.
  intros Hsafe Hfile Hsuf.
  pose proof (safe_path_canonical T _ _ _ _ Hsafe) as Hcan.
  rewrite (write_unguarded T f content "a" w p Hsafe)
    by (rewrite Hsuf; apply andb_false_r).
  by rewrite write_bytes_resolved, Hfile by done.
Qed.

(** C3, amended: writing [X] with mode ["w"] leaves exactly [X] in the
    file, and reading gives [X] with ["\r\n"] and ["\r"] turned into
    ["\n"]; then writing [Y] with mode ["a"] leaves [X] followed by [Y],
    and reading gives that, translated the same way.  What is read is
    exactly [X], and [X] followed by [Y], when neither holds a carriage
    return. *)
Theorem write_then_read f X Y (w : world) p :
  _get_safe_path T f w = (Ret p, w) ->
  regular_or_new (w_fs w) p ->
  PyStr.elem (PyStr.lower (suffix p)) guarded_suffixes = false ->
  Utf8.valid X = true ->
  Utf8.valid Y = true ->
  exists w1 w2,
    write_to_file T f X "w" w = (Ret ("âœ… Successfully wrote to " +:+ f), w1)
    /\ w_fs w1 !! p = Some (File X)
    /\ read_file T f w1 = (Ret (Utf8.universal_newlines X), w1)
    /\ write_to_file T f Y "a" w1
       = (Ret ("âœ… Successfully wrote to " +:+ f), w2)
    /\ w_fs w2 !! p = Some (File (X +:+ Y))
    /\ read_file T f w2 = (Ret (Utf8.universal_newlines (X +:+ Y)), w2)
    /\ (PyStr.contains Utf8.CR X = false -> read_file T f w1 = (Ret X, w1))
    /\ (PyStr.contains Utf8.CR X = false ->
        PyStr.contains Utf8.CR Y = false ->
        read_file T f w2 = (Ret (X +:+ Y), w2)).
Proof.
  intros Hsafe Hreg Hsuf HX HY.
  set (w1 := Mem.with_fs w (<[p := File X]> (w_fs w))).
  set (w2 := Mem.with_fs w1 (<[p := File (X +:+ Y)]> (w_fs w1))).
  assert (_get_safe_path T f w1 = (Ret p, w1)) as Hsafe1.
  { eapply get_safe_path_after_write;
      [exact Hsafe | by apply regular_or_new_link_of | done]. }
  assert (w_fs w1 !! p = Some (File X)) as Hfile1
    by apply lookup_insert_eq.
  assert (_get_safe_path T f w2 = (Ret p, w2)) as Hsafe2.
  { eapply get_safe_path_after_write; [exact Hsafe1 | | done].
    unfold link_of. by rewrite Hfile1. }
  assert (w_fs w2 !! p = Some (File (X +:+ Y))) as Hfile2
    by apply lookup_insert_eq.
  assert (read_file T f w1 = (Ret (Utf8.universal_newlines X), w1)) as Hr1
    by (by apply (read_file_text T f w1 p)).
  assert (read_file T f w2 = (Ret (Utf8.universal_newlines (X +:+ Y)), w2))
    as Hr2 by (apply (read_file_text T f w2 p); auto using valid_app).
  exists w1, w2. split; [by apply write_overwrite|]. split; [done|].
  split; [done|]. split; [by apply (write_append f Y w1 p X)|].
  split; [done|]. split; [done|]. split.
  - intros Hcr. by rewrite Hr1, universal_newlines_no_cr.
  - intros HcX HcY. rewrite Hr2, universal_newlines_no_cr; [done|].
    by rewrite contains_app, HcX, HcY.
Qed.

(** Two texts that differ at a known place. *)
Local Ltac differ :=
  let H := fresh in
  intros H;
  cbv [fst ret String.append exn_str Fs.ENOTDIR Fs.ENOENT Fs.EISDIR
         Fs.ELOOP Fs.oserror] in H;
  discriminate H.

(** C4: [write_to_file] answers with the unsupported-write message
    exactly when the resolved target is there and its suffix, in lower
    case, is one of .pdf, .docx, .db and .sqlite, and then changes
    nothing; a path ending in .pdf where nothing is yet is written. *)
Theorem write_guard_exact f content mode (w : world) :
  (fst (write_to_file T f content mode w)
     = Ret "Error: Cannot write text directly to binary/database files."
   <-> exists p,
         _get_safe_path T f w = (Ret p, w)
         /\ is_Some (w_fs w !! p)
         /\ PyStr.elem (PyStr.lower (suffix p)) guarded_suffixes = true)
  /\ (fst (write_to_file T f content mode w)
        = Ret "Error: Cannot write text directly to binary/database files."
      -> snd (write_to_file T f content mode w) = w)
  /\ (forall p,
        _get_safe_path T f w = (Ret p, w) ->
        PyStr.lower (suffix p) = ".pdf" ->
        w_fs w !! p = None ->
        Fs.missing_parent (w_fs w) p p = None ->
        write_to_file T f content mode w
        = (Ret ("âœ… Successfully wrote to " +:+ f),
           Mem.with_fs w (<[p := File content]> (w_fs w)))).
Proof.
  assert (forall p,
            _get_safe_path T f w = (Ret p, w) ->
            is_Some (w_fs w !! p) ->
            PyStr.elem (PyStr.lower (suffix p)) guarded_suffixes = true ->
            write_to_file T f content mode w
            = (Ret "Error: Cannot write text directly to binary/database files.", w))
    as Hguard by (intros p; apply write_guarded).
  assert (fst (write_to_file T f content mode w)
            = Ret "Error: Cannot write text directly to binary/database files."
          -> exists p,
              _get_safe_path T f w = (Ret p, w)
              /\ is_Some (w_fs w !! p)
              /\ PyStr.elem (PyStr.lower (suffix p)) guarded_suffixes = true)
    as Honly.
  { destruct (_get_safe_path (P := MemPlatform) T f w) as [[p|e] w'] eqn:Hsafe.
    - destruct (get_safe_path_inv _ _ _ _ _ Hsafe) as (-> & _ & _ & Hcan).
      destruct (bool_decide (is_Some (w_fs w !! p))
                && PyStr.elem (PyStr.lower (suffix p)) guarded_suffixes)
        eqn:Hg.
      + apply andb_true_iff in Hg as [Hs%bool_decide_eq_true Hel]. eauto.
      + rewrite (write_unguarded T f content mode w p Hsafe Hg).
        rewrite write_bytes_resolved by done.
        destruct (w_fs w !! p) as [[d| |t]|]; try differ.
        unfold Fs.missing_parent. destruct p as [|a r] eqn:Hp; [differ|].
        rewrite <- Hp. destruct (w_fs w !! removelast p) as [[d| |t]|]; differ.
    - unfold write_to_file. erewrite try_raise_Exception; [|by erewrite bind_raise].
      revert Hsafe. rewrite get_safe_path_unfold.
      destruct (Fs.realpath _ _) as [q|]; [destruct (PyStr.startswith _ _)|];
        intros [= <- <-]; differ. }
  split; [split; [exact Honly|]|split].
  - intros (p & Hsafe & Hsome & Hel). by rewrite (Hguard p).
  - intros (p & Hsafe & Hsome & Hel)%Honly. by rewrite (Hguard p).
  - intros p Hsafe Hpdf Hnone Hparent.
    pose proof (safe_path_canonical T _ _ _ _ Hsafe) as Hcan.
    rewrite (write_unguarded T f content mode w p Hsafe)
      by (by rewrite Hnone).
    by rewrite write_bytes_resolved, Hnone, Hparent by done.
Qed.

End WriteRead.

(** ** The SQL tools *)

Section Sql.
Context {E : SqlEngine} {D : DocReaders}.
(** [T] stands for [TARGET_FOLDER]. *)
Variable T : path.

Lemma connect_file (w : world) p data :
  canonical (w_fs w) p -> w_fs w !! p = Some (File data) ->
  sqlite3_connect p w = Mem.open_conn w p data.
Proof.
  intros Hcan Hfile. cbn [sqlite3_connect MemPlatform]. unfold Mem.connect.
  by rewrite realpath_canonical, Hfile.
Qed.

Lemma connect_new (w : world) p :
  canonical (w_fs w) p -> w_fs w !! p = None ->
  Fs.missing_parent (w_fs w) p p = None ->
  sqlite3_connect p w
  = Mem.open_conn (Mem.with_fs w (<[p := File ""]> (w_fs w))) p "".
Proof.
  intros Hcan Hnone Hpar. cbn [sqlite3_connect MemPlatform]. unfold Mem.connect.
  by rewrite realpath_canonical, Hnone, Hpar.
Qed.

(** [run_sql_query] from the point where the connection is open on the
    bytes [data] of the file at [p], in a world [w0]. *)
Lemma run_sql_query_connected f q (w w0 : world) p data :
  _get_safe_path T f w = (Ret p, w) ->
  sqlite3_connect p w = Mem.open_conn w0 p data ->
  run_sql_query T f q w =
  match sqlite_step data q with
  | ExecOk r =>
      if in_progress r then
        (Ret ("Query Execution Error: "
                +:+ exn_str Mem.statements_in_progress),
         mk_world (w_fs w0) (delete (w_next w0) (w_conns w0)) (S (w_next w0)))
      else
        (Ret (outcome_text r),
         mk_world (<[p := File (ex_image r)]> (w_fs w0))
           (delete (w_next w0) (w_conns w0)) (S (w_next w0)))
  | ExecError msg after =>
      (Ret ("Query Execution Error: " +:+ msg),
       mk_world (<[p := File after]> (w_fs w0))
         (delete (w_next w0) (w_conns w0)) (S (w_next w0)))
  end.
Proof.
  intros Hsafe Hconn. unfold run_sql_query, try_ at 1, bind at 1.
  rewrite Hsafe. unfold bind at 1. rewrite Hconn. unfold Mem.open_conn.
  unfold bind at 1. cbn [conn_cursor MemPlatform]. unfold Mem.cursor.
  cbn [w_conns]. rewrite lookup_insert_eq.
  unfold try_, bind. cbn [cursor_execute MemPlatform]. unfold Mem.execute.
  cbn [w_conns]. rewrite lookup_insert_eq. cbn [c_view].
  destruct (sqlite_step data q) as [r|msg after].
  - cbn [conn_commit cursor_description cursor_fetchall conn_total_changes
         conn_close MemPlatform c_dirty c_path negb andb].
    unfold Mem.commit, Mem.description, Mem.with_conn, Mem.with_fs.
    cbn [w_conns w_fs w_next]. rewrite !lookup_insert_eq.
    cbn [c_description c_dirty c_path c_view c_rows c_total_changes c_writing].
    rewrite andb_true_r.
    unfold outcome_text, in_progress.
    destruct (ex_autocommit r); cbn [negb andb];
      [|destruct (ex_rows r) as [|row rows] eqn:Hrows];
      cbn [w_conns w_fs w_next]; rewrite ?lookup_insert_eq;
      cbn [c_description c_dirty c_path c_view c_rows c_total_changes
           c_writing].
    3: { cbn [find_handler]. rewrite isinstance_Exception.
         cbn [conn_close MemPlatform].
         unfold Mem.close, Mem.statements_in_progress, ret.
         cbn [w_conns w_fs w_next exn_str].
         by rewrite !delete_insert_eq. }
    all: destruct (truthy (ex_description r)) eqn:Htr.
    all: unfold Mem.fetchall, Mem.total_changes, Mem.description, Mem.close,
           Mem.with_conn, iter_description, ret, bind;
         cbn [w_conns w_fs w_next]; rewrite ?lookup_insert_eq;
         cbn [c_description c_dirty c_path c_view c_rows c_total_changes
              c_writing w_conns w_fs w_next];
         rewrite ?lookup_insert_eq;
         cbn [c_description c_dirty c_path c_view c_rows c_total_changes
              c_writing w_conns w_fs w_next].
    all: try (destruct (ex_description r) as [cols|] eqn:Hd; [|done];
              cbn [default]).
    all: try destruct (ex_rows r) as [|row rows].
    all: cbn [w_conns w_fs w_next].
    all: rewrite ?delete_insert_eq, ?insert_insert_eq.
    all: reflexivity.
  - cbn [find_handler]. rewrite isinstance_Exception.
    cbn [conn_close MemPlatform]. unfold Mem.close, Mem.with_conn, Mem.with_fs, ret.
    cbn [w_conns w_fs w_next c_path].
    by rewrite !delete_insert_eq.
Qed.
End Sql.

Section SqlClaims.
Context {E : SqlEngine} {D : DocReaders}.
(** [T] stands for [TARGET_FOLDER]. *)
Variable T : path.

Lemma create_sql_db_bad_extension f (w : world) :
  PyStr.endswith f ".db" || PyStr.endswith f ".sqlite" = false ->
  create_sql_db T f w
  = (Ret "Error: Database filename must end with .db or .sqlite", w).
Proof. intros H. unfold create_sql_db. by rewrite H. Qed.

Lemma create_sql_db_exists f (w : world) p :
  PyStr.endswith f ".db" || PyStr.endswith f ".sqlite" = true ->
  _get_safe_path T f w = (Ret p, w) ->
  is_Some (w_fs w !! p) ->
  create_sql_db T f w = (Ret ("Error: File '" +:+ f +:+ "' already exists."), w).
Proof.
  intros Hext Hsafe Hsome. pose proof (safe_path_canonical T _ _ _ _ Hsafe) as Hcan.
  unfold create_sql_db. rewrite Hext. cbn [negb].
  erewrite try_ret; [reflexivity|].
  erewrite bind_ret by exact Hsafe.
  erewrite bind_ret by (by apply exists_resolved).
  by rewrite bool_decide_eq_true_2.
Qed.

Lemma create_sql_db_new f (w : world) p :
  PyStr.endswith f ".db" || PyStr.endswith f ".sqlite" = true ->
  _get_safe_path T f w = (Ret p, w) ->
  w_fs w !! p = None ->
  Fs.missing_parent (w_fs w) p p = None ->
  create_sql_db T f w
  = (Ret ("âœ… Created new database: " +:+ f),
     mk_world (<[p := File ""]> (w_fs w)) (delete (w_next w) (w_conns w))
       (S (w_next w))).
Proof.
  intros Hext Hsafe Hnone Hpar.
  pose proof (safe_path_canonical T _ _ _ _ Hsafe) as Hcan.
  unfold create_sql_db. rewrite Hext. cbn [negb].
  erewrite try_ret; [reflexivity|].
  erewrite bind_ret by exact Hsafe.
  erewrite bind_ret by (by apply exists_resolved).
  rewrite Hnone, bool_decide_eq_false_2 by (by intros [? ?]).
  erewrite bind_ret by (by apply connect_new).
  cbn [conn_close MemPlatform]. unfold bind, Mem.close, ret.
  cbn [w_conns w_fs w_next Mem.with_fs]. by rewrite delete_insert_eq.
Qed.

(** C5: [create_sql_db] looks at the extension before it resolves the
    path; on a target that is there it answers that the file exists and
    changes nothing; otherwise the target becomes an empty file, through
    a connection that is closed again, and a second call with the same
    name answers that the file exists and changes nothing. *)
Theorem create_sql_db_cases f (w : world) :
  (PyStr.endswith f ".db" || PyStr.endswith f ".sqlite" = false ->
   create_sql_db T f w
   = (Ret "Error: Database filename must end with .db or .sqlite", w))
  /\ (PyStr.endswith f ".db" || PyStr.endswith f ".sqlite" = true ->
      forall p,
        _get_safe_path T f w = (Ret p, w) ->
        (is_Some (w_fs w !! p) ->
         create_sql_db T f w
         = (Ret ("Error: File '" +:+ f +:+ "' already exists."), w))
        /\ (w_fs w !! p = None ->
            Fs.missing_parent (w_fs w) p p = None ->
            exists w1,
              create_sql_db T f w
              = (Ret ("âœ… Created new database: " +:+ f), w1)
              /\ w_fs w1 = <[p := File ""]> (w_fs w)
              /\ w_conns w1 = delete (w_next w) (w_conns w)
              /\ create_sql_db T f w1
                 = (Ret ("Error: File '" +:+ f +:+ "' already exists."), w1))).
Proof.
  split; [apply create_sql_db_bad_extension|].
  intros Hext p Hsafe. split; [by apply create_sql_db_exists|].
  intros Hnone Hpar. eexists. split; [by apply create_sql_db_new|].
  split; [done|]. split; [done|].
  apply (create_sql_db_exists f _ p); [done| |].
  - eapply get_safe_path_after_write; [exact Hsafe | | reflexivity].
    unfold link_of. by rewrite Hnone.
  - cbn [w_fs]. rewrite lookup_insert_eq. eauto.
Qed.

(** C6: [run_sql_query] commits before it fetches.  On a database file,
    a statement that ran inside the transaction Python opens for an
    INSERT, UPDATE, DELETE or REPLACE, and that has output columns and a
    row to give, as with a RETURNING clause, is not answered with its
    rows: SQLite refuses the commit, the answer is the text of a query
    error, which is no list of rows, the connection is closed, and the
    file keeps the bytes it had: what the statement wrote is lost. *)
Theorem returning_rows_are_lost f q (w : world) p data r c cols row rows :
  _get_safe_path T f w = (Ret p, w) ->
  w_fs w !! p = Some (File data) ->
  sqlite_step data q = ExecOk r ->
  ex_autocommit r = false ->
  ex_description r = Some (c :: cols) ->
  ex_rows r = row :: rows ->
  exists w',
    run_sql_query T f q w
    = (Ret ("Query Execution Error: "
              +:+ "cannot commit transaction - SQL statements in progress"),
       w')
    /\ (forall ds,
          "Query Execution Error: "
            +:+ "cannot commit transaction - SQL statements in progress"
          <> PyRepr.str_dict_list ds)
    /\ w_fs w' = w_fs w
    /\ w_conns w' = delete (w_next w) (w_conns w).
Proof.
  intros Hsafe Hfile Hstep Hauto _ Hrows.
  pose proof (safe_path_canonical T _ _ _ _ Hsafe) as Hcan.
  pose proof (run_sql_query_connected T f q w w p data Hsafe
                (connect_file w p data Hcan Hfile)) as Hrun.
  rewrite Hstep in Hrun. unfold in_progress in Hrun.
  rewrite Hauto, Hrows in Hrun. cbn [negb andb] in Hrun.
  eexists. split; [exact Hrun|]. split; [|split; reflexivity].
  intros ds H. unfold PyRepr.str_dict_list in H.
  cbv [String.append] in H. discriminate H.
Qed.


(** C10: for a name that resolves to a path where nothing is, in a
    directory that is there, [inspect_sql_db] reports that the file was
    not found and changes nothing, while [run_sql_query] makes the file
    and runs the statement on the empty database: its answer is that of
    the statement, and the file is left with what the statement made of
    the empty image; where the commit is refused, the answer is that
    query error and the file is left empty. *)
Theorem query_creates_missing_database f q (w : world) p :
  _get_safe_path T f w = (Ret p, w) ->
  w_fs w !! p = None ->
  Fs.missing_parent (w_fs w) p p = None ->
  inspect_sql_db T f w = (Ret "Error: Database file not found.", w)
  /\ exists s image w',
       run_sql_query T f q w = (Ret s, w')
       /\ w_fs w' = <[p := File image]> (w_fs w)
       /\ match sqlite_step "" q with
          | ExecOk r =>
              if in_progress r then
                s = "Query Execution Error: "
                      +:+ exn_str Mem.statements_in_progress
                /\ image = ""
              else s = outcome_text r /\ image = ex_image r
          | ExecError msg after =>
              s = "Query Execution Error: " +:+ msg /\ image = after
          end.
Proof.
  intros Hsafe Hnone Hpar.
  pose proof (safe_path_canonical T _ _ _ _ Hsafe) as Hcan. split.
  - unfold inspect_sql_db.
    erewrite try_ret; [reflexivity|].
    erewrite bind_ret by exact Hsafe.
    erewrite bind_ret by (by apply exists_resolved).
    by rewrite Hnone, bool_decide_eq_false_2 by (by intros [? ?]).
  - rewrite (run_sql_query_connected T f q w _ p "" Hsafe
               (connect_new w p Hcan Hnone Hpar)).
    destruct (sqlite_step "" q) as [r|msg after];
      [destruct (in_progress r)|]; eexists _, _, _;
      (split; [reflexivity|]); cbn [w_fs Mem.with_fs];
      by rewrite ?insert_insert_eq.
Qed.
End SqlClaims.

(** ** The theorems at the sample world *)

(** C3 as stated fails on a content with a carriage return: what is read
    back after writing ["a\r\nb"] is ["a\nb"]. *)
Lemma carriage_return_read_back :
  let X := "a" +:+ PyStr.cr +:+ PyStr.nl +:+ "b" in
  let w1 := snd (@write_to_file Sample.platform Sample.root "a.txt" X "w" Sample.w) in
  fst (@read_file Sample.platform Sample.root "a.txt" w1)
  = Ret ("a" +:+ PyStr.nl +:+ "b")
  /\ fst (@read_file Sample.platform Sample.root "a.txt" w1) <> Ret X.
Proof.
  split; [vm_compute; reflexivity|]. vm_compute. discriminate.
Qed.

(** Writing ["X"], then appending ["Y"], to notes.txt and reading back. *)
Lemma write_then_read_witness :
  exists w1 w2,
    @write_to_file Sample.platform Sample.root "notes.txt" "X" "w" Sample.w
    = (Ret "âœ… Successfully wrote to notes.txt", w1)
    /\ @read_file Sample.platform Sample.root "notes.txt" w1 = (Ret "X", w1)
    /\ @write_to_file Sample.platform Sample.root "notes.txt" "Y" "a" w1
       = (Ret "âœ… Successfully wrote to notes.txt", w2)
    /\ @read_file Sample.platform Sample.root "notes.txt" w2 = (Ret "XY", w2).
Proof.
  destruct (@write_then_read Sample.engine Sample.readers Sample.root
              "notes.txt" "X" "Y" Sample.w ["srv"; "workspace"; "notes.txt"])
    as (w1 & w2 & H1 & _ & H2 & H3 & _ & H4 & _).
  - vm_compute. reflexivity.
  - left. exists "hello". vm_compute. reflexivity.
  - vm_compute. reflexivity.
  - vm_compute. reflexivity.
  - vm_compute. reflexivity.
  - exists w1, w2. auto.
Defined.

(** A new new.pdf is written; the report.pdf that is there is not. *)
Lemma write_guard_exact_witness :
  @write_to_file Sample.platform Sample.root "new.pdf" "text" "w" Sample.w
  = (Ret "âœ… Successfully wrote to new.pdf",
     Mem.with_fs Sample.w
       (<[["srv"; "workspace"; "new.pdf"] := File "text"]> Sample.fs))
  /\ fst (@write_to_file Sample.platform Sample.root "report.pdf" "text" "w"
            Sample.w)
     = Ret "Error: Cannot write text directly to binary/database files.".
Proof.
  split.
  - refine (proj2 (proj2
      (@write_guard_exact Sample.engine Sample.readers Sample.root
         "new.pdf" "text" "w" Sample.w)) ["srv"; "workspace"; "new.pdf"] _ _ _ _).
    + vm_compute. reflexivity.
    + vm_compute. reflexivity.
    + vm_compute. reflexivity.
    + vm_compute. reflexivity.
  - apply (proj1
      (@write_guard_exact Sample.engine Sample.readers Sample.root
         "report.pdf" "text" "w" Sample.w)).
    exists ["srv"; "workspace"; "report.pdf"]. split; [|split].
    + vm_compute. reflexivity.
    + exists (File "%PDF-1.7"). vm_compute. reflexivity.
    + vm_compute. reflexivity.
Defined.


(** A name without the ending, a database that is there, and a new one
    made and then asked for again. *)
Lemma create_sql_db_cases_witness :
  @create_sql_db Sample.platform Sample.root ".." Sample.w
  = (Ret "Error: Database filename must end with .db or .sqlite", Sample.w)
  /\ @create_sql_db Sample.platform Sample.root "data.db" Sample.w
     = (Ret "Error: File 'data.db' already exists.", Sample.w)
  /\ exists w1,
       @create_sql_db Sample.platform Sample.root "new.db" Sample.w
       = (Ret "âœ… Created new database: new.db", w1)
       /\ w_fs w1 = <[["srv"; "workspace"; "new.db"] := File ""]> Sample.fs
       /\ @create_sql_db Sample.platform Sample.root "new.db" w1
          = (Ret "Error: File 'new.db' already exists.", w1).
Proof.
  split; [|split].
  - apply (proj1 (@create_sql_db_cases Sample.engine Sample.readers Sample.root
                    ".." Sample.w)).
    vm_compute. reflexivity.
  - refine (proj1 (proj2 (@create_sql_db_cases Sample.engine Sample.readers
                            Sample.root "data.db" Sample.w) _
                     ["srv"; "workspace"; "data.db"] _) _).
    + vm_compute. reflexivity.
    + vm_compute. reflexivity.
    + exists (File ""). vm_compute. reflexivity.
  - destruct (proj2 (proj2 (@create_sql_db_cases Sample.engine Sample.readers
                              Sample.root "new.db" Sample.w) eq_refl
                       ["srv"; "workspace"; "new.db"] eq_refl) eq_refl eq_refl)
      as (w1 & H1 & H2 & _ & H3).
    exists w1. auto.
Defined.

(** An INSERT with a RETURNING clause on shop.db, which has the table. *)
Lemma returning_rows_are_lost_witness :
  exists w',
    @run_sql_query Shop.platform Shop.root "shop.db"
      "INSERT INTO t VALUES (7) RETURNING id" Shop.w
    = (Ret ("Query Execution Error: "
              +:+ "cannot commit transaction - SQL statements in progress"),
       w')
    /\ w_fs w' = Shop.fs.
Proof.
  destruct (@returning_rows_are_lost Shop.engine Office.readers Shop.root
              "shop.db" "INSERT INTO t VALUES (7) RETURNING id" Shop.w
              ["srv"; "workspace"; "shop.db"] "CREATE TABLE t(id INT);"
              (mk_exec_ok
                 ("CREATE TABLE t(id INT);" +:+ "INSERT INTO t VALUES (7);")
                 false (Some ["id"]) [[VInt 7]] 1)
              "id" [] [VInt 7] [])
    as (w' & H1 & _ & H2 & _).
  - vm_compute. reflexivity.
  - vm_compute. reflexivity.
  - vm_compute. reflexivity.
  - reflexivity.
  - reflexivity.
  - reflexivity.
  - exists w'. split; [exact H1 | exact H2].
Defined.


(** fresh.db is not there: inspecting reports it, querying makes it. *)
Lemma query_creates_missing_database_witness :
  @inspect_sql_db Sample.platform Sample.root "fresh.db" Sample.w
  = (Ret "Error: Database file not found.", Sample.w)
  /\ exists w',
       @run_sql_query Sample.platform Sample.root "fresh.db"
         "CREATE TABLE t(id INT)" Sample.w
       = (Ret "âœ… Success. Rows affected: 0", w')
       /\ w_fs w' = <[["srv"; "workspace"; "fresh.db"]
                        := File "CREATE TABLE t(id INT);"]> Sample.fs.
Proof.
  destruct (@query_creates_missing_database Sample.engine Sample.readers
              Sample.root "fresh.db" "CREATE TABLE t(id INT)" Sample.w
              ["srv"; "workspace"; "fresh.db"] eq_refl eq_refl eq_refl)
    as (Hi & s & image & w' & Hrun & Hfs & Hstep).
  vm_compute in Hstep. destruct Hstep as [-> ->].
  split; [exact Hi|]. exists w'. split; [exact Hrun | exact Hfs].
Defined.

(** Reading ["dir/"] fails on the root directory. *)
Lemma empty_component_is_root_witness :
  @read_file Sample.platform Sample.root "dir/" Sample.w
  = (Ret "Error: [Errno 21] Is a directory: '/srv/workspace'", Sample.w).
Proof.
  refine (proj1 (proj2
    (@empty_component_is_root Sample.engine Sample.readers Sample.root "dir/"
       Sample.w _ _ _ _))).
  - left. reflexivity.
  - vm_compute. reflexivity.
  - vm_compute. reflexivity.
  - vm_compute. reflexivity.
Defined.

(** * Further properties *)

(** ** Further properties of the resolver *)

Section ResolverMore.
Context {P : Platform}.
(** [T] stands for [TARGET_FOLDER]. *)
Variable T : path.

Lemma after_last_sep_app sep d n :
  PyStr.contains sep n = false ->
  PyStr.after_last sep (d +:+ String sep n) = n.
Proof.
  intros Hn. induction d as [|c r IH].
  - rewrite app_nil_l. cbn [PyStr.after_last]. by rewrite Hn, Ascii.eqb_refl.
  - rewrite app_cons. cbn [PyStr.after_last].
    rewrite contains_app. cbn [PyStr.contains]. rewrite Ascii.eqb_refl.
    by rewrite orb_true_r.
Qed.

(** X3: the directory part of a file name has no effect on the path that is
    returned: [d/n] and [n] resolve alike. *)
Theorem directory_part_is_discarded d n w p w' :
  PyStr.contains PyStr.slash n = false ->
  _get_safe_path T (d +:+ "/" +:+ n) w = (Ret p, w')
  <-> _get_safe_path T n w = (Ret p, w').
Proof.
  intros Hn. unfold _get_safe_path, bind.
  change (d +:+ "/" +:+ n) with (d +:+ String PyStr.slash n).
  unfold basename. rewrite after_last_sep_app, after_last_no_sep by done.
  destruct (path_resolve (joinpath T n) w) as [[q|e] w1]; [|done].
  by destruct (negb _).
Qed.

(** X4: when the resolver raises, every tool that takes a file name returns
    its error text with the message of the exception, in the world the
    resolver left, and calls nothing else. *)
Theorem denied_path_stops_every_tool f w e w' :
  _get_safe_path T f w = (Raise e, w') ->
  read_file T f w = (Ret ("Error: " +:+ exn_str e), w')
  /\ (forall c m, write_to_file T f c m w = (Ret ("Error: " +:+ exn_str e), w'))
  /\ delete_file T f w = (Ret ("Error deleting file: " +:+ exn_str e), w')
  /\ inspect_sql_db T f w = (Ret ("Error: " +:+ exn_str e), w')
  /\ (forall q,
        run_sql_query T f q w = (Ret ("System Error: " +:+ exn_str e), w'))
  /\ (PyStr.endswith f ".db" || PyStr.endswith f ".sqlite" = true ->
      create_sql_db T f w
      = (Ret ("Error creating database: " +:+ exn_str e), w')).
Proof.
  intros Hsafe. repeat split; intros.
  - unfold read_file.
    rewrite (try_raise_Exception _ _ w e w'); [done|by apply bind_raise].
  - unfold write_to_file.
    rewrite (try_raise_Exception _ _ w e w'); [done|by apply bind_raise].
  - unfold delete_file.
    rewrite (try_raise_Exception _ _ w e w'); [done|by apply bind_raise].
  - unfold inspect_sql_db.
    rewrite (try_raise_Exception _ _ w e w'); [done|by apply bind_raise].
  - unfold run_sql_query.
    rewrite (try_raise_Exception _ _ w e w'); [done|by apply bind_raise].
  - unfold create_sql_db. rewrite H. cbn [negb].
    rewrite (try_raise_Exception _ _ w e w'); [done|by apply bind_raise].
Qed.

End ResolverMore.

(** ** Deleting, and reading what is not text *)

Section DeleteRead.
Context {E : SqlEngine} {D : DocReaders}.
(** [T] stands for [TARGET_FOLDER]. *)
Variable T : path.

(** X2: a name whose last component is [".."] is denied, unless the sandbox is
    the root of the file system. *)
Theorem parent_name_is_denied f (w : world) :
  basename f = ".." ->
  Fs.realpath (w_fs w) T = Some T ->
  T <> [] ->
  _get_safe_path T f w
  = (Raise (mk_exn ValueError
              ("Access denied: " +:+ f +:+ " is outside the allowed directory.")),
     w)
  /\ read_file T f w
     = (Ret ("Error: Access denied: " +:+ f
               +:+ " is outside the allowed directory."), w).
Proof.
  intros Hb HT Hne. pose proof (realpath_result_canonical _ _ _ HT) as Hcan.
  assert (_get_safe_path T f w
          = (Raise (mk_exn ValueError
                      ("Access denied: " +:+ f
                         +:+ " is outside the allowed directory.")), w)) as Hsafe.
  { rewrite get_safe_path_unfold.
    rewrite joinpath_one by apply basename_no_slash. rewrite Hb.
    rewrite bool_decide_eq_false_2 by (intros [?|?]; discriminate).
    rewrite realpath_snoc by done. cbn [Fs.walk].
    rewrite bool_decide_eq_false_2 by (intros [?|?]; discriminate).
    rewrite bool_decide_eq_true_2 by done.
    by rewrite (parent_fails_check (w_fs w)). }
  split; [done|]. unfold read_file.
  erewrite try_raise_Exception; [|by apply bind_raise]. reflexivity.
Qed.

Lemma get_safe_path_of_canonical f (w : world) :
  canonical (w_fs w) (joinpath T (basename f)) ->
  PyStr.startswith (str_path (joinpath T (basename f))) (str_path T) = true ->
  _get_safe_path T f w = (Ret (joinpath T (basename f)), w).
Proof.
  intros Hcan Hpre. rewrite get_safe_path_unfold.
  by rewrite realpath_canonical, Hpre.
Qed.

Lemma canonical_delete fs q p : canonical fs p -> canonical (delete q fs) p.
Proof.
  apply canonical_ext. intros q' t Hq. by apply lookup_delete_Some in Hq as [_ ?].
Qed.

Lemma remove_file fs p node :
  canonical fs p -> p <> [] -> fs !! p = Some node -> node <> Dir ->
  Fs.remove fs p = Ret (delete p fs).
Proof.
  intros Hcan Hne Hlook Hnode. unfold Fs.remove.
  destruct p as [|a r] eqn:Hp; [done|]. rewrite <- Hp in *.
  rewrite realpath_canonical by (by apply canonical_removelast).
  rewrite removelast_name, Hlook by done. by destruct node.
Qed.

Lemma delete_file_missing f (w : world) p :
  _get_safe_path T f w = (Ret p, w) ->
  w_fs w !! p = None ->
  delete_file T f w = (Ret ("Error: File '" +:+ f +:+ "' not found."), w).
Proof.
  intros Hsafe Hnone. pose proof (safe_path_canonical T _ _ _ _ Hsafe) as Hcan.
  unfold delete_file. erewrite try_ret; [reflexivity|].
  erewrite bind_ret by exact Hsafe.
  erewrite bind_ret by (by apply exists_resolved).
  by rewrite Hnone, bool_decide_eq_false_2 by (by intros [? ?]).
Qed.

Lemma read_file_missing f (w : world) p :
  _get_safe_path T f w = (Ret p, w) ->
  w_fs w !! p = None ->
  read_file T f w = (Ret ("Error: File '" +:+ f +:+ "' not found."), w).
Proof.
  intros Hsafe Hnone. pose proof (safe_path_canonical T _ _ _ _ Hsafe) as Hcan.
  unfold read_file. erewrite try_ret; [reflexivity|].
  erewrite bind_ret by exact Hsafe.
  erewrite bind_ret by (by apply exists_resolved).
  by rewrite Hnone, bool_decide_eq_false_2 by (by intros [? ?]).
Qed.

Lemma delete_file_regular f (w : world) p data :
  _get_safe_path T f w = (Ret p, w) ->
  p <> [] ->
  w_fs w !! p = Some (File data) ->
  delete_file T f w
  = (Ret ("âœ… Successfully deleted " +:+ f),
     Mem.with_fs w (delete p (w_fs w))).
Proof.
  intros Hsafe Hne Hfile. pose proof (safe_path_canonical T _ _ _ _ Hsafe) as Hcan.
  unfold delete_file. erewrite try_ret; [reflexivity|].
  erewrite bind_ret by exact Hsafe.
  erewrite bind_ret by (by apply exists_resolved).
  rewrite Hfile, bool_decide_eq_true_2 by eauto. cbn [negb].
  erewrite bind_ret; [reflexivity|].
  cbn [os_remove MemPlatform]. unfold Mem.remove.
  by rewrite (remove_file _ _ (File data)).
Qed.

(** X5: [delete_file] on a name that resolves to nothing reports that the file
    was not found and changes nothing.  On a regular file, whatever its
    suffix (a database too), it removes the file at the resolved path and
    nothing else; where the name itself is the file, deleting or reading it
    again reports that it was not found. *)
Theorem delete_file_cases f (w : world) p :
  _get_safe_path T f w = (Ret p, w) ->
  (w_fs w !! p = None ->
   delete_file T f w = (Ret ("Error: File '" +:+ f +:+ "' not found."), w))
  /\ (forall data,
        p <> [] ->
        w_fs w !! p = Some (File data) ->
        exists w',
          delete_file T f w = (Ret ("âœ… Successfully deleted " +:+ f), w')
          /\ w_fs w' = delete p (w_fs w)
          /\ w_conns w' = w_conns w
          /\ (joinpath T (basename f) = p ->
              delete_file T f w'
              = (Ret ("Error: File '" +:+ f +:+ "' not found."), w')
              /\ read_file T f w'
                 = (Ret ("Error: File '" +:+ f +:+ "' not found."), w'))).
Proof.
  intros Hsafe. split; [by apply delete_file_missing|].
  intros data Hne Hfile. eexists. split; [by eapply delete_file_regular|].
  split; [done|]. split; [done|]. intros Hname.
  destruct (get_safe_path_inv T _ _ _ _ Hsafe) as (_ & _ & Hpre & Hcan).
  set (w' := Mem.with_fs w (delete p (w_fs w))).
  assert (_get_safe_path T f w' = (Ret p, w')) as Hsafe'.
  { rewrite <- Hname. apply get_safe_path_of_canonical; rewrite Hname; [|done].
    by apply canonical_delete. }
  assert (w_fs w' !! p = None) as Hgone by apply lookup_delete_eq.
  split; [by apply (delete_file_missing f w' p) | by apply (read_file_missing f w' p)].
Qed.

(** X6: a regular file whose bytes are not UTF-8, and whose suffix is neither
    .pdf nor .docx, is answered with the message about binary files. *)
Theorem read_file_binary f (w : world) p data :
  _get_safe_path T f w = (Ret p, w) ->
  w_fs w !! p = Some (File data) ->
  PyStr.lower (suffix p) <> ".pdf" ->
  PyStr.lower (suffix p) <> ".docx" ->
  Utf8.valid data = false ->
  read_file T f w
  = (Ret "Error: Binary file detected. Use 'inspect_sql_db' for databases.", w).
Proof.
  intros Hsafe Hfile Hpdf%String.eqb_neq Hdocx%String.eqb_neq Hbad.
  pose proof (safe_path_canonical T _ _ _ _ Hsafe) as Hcan.
  unfold read_file. erewrite try_ret; [reflexivity|].
  erewrite bind_ret by exact Hsafe.
  erewrite bind_ret by (by apply exists_resolved).
  rewrite Hfile, bool_decide_eq_true_2 by eauto. cbn [negb].
  rewrite Hpdf, Hdocx. unfold try_.
  cbn [open_read MemPlatform]. unfold Mem.read_text.
  by rewrite read_bytes_resolved, Hfile, Hbad by done.
Qed.

End DeleteRead.

(** ** Listing, and what reading leaves alone *)

Section Listing.
Context {E : SqlEngine} {D : DocReaders}.
(** [T] stands for [TARGET_FOLDER]. *)
Variable T : path.

Lemma filter_m_is_file (w : world) (l : list path) :
  filter_m path_is_file l w = (Ret (List.filter (leads_to_file (w_fs w)) l), w).
Proof.
  induction l as [|q l IH]; [done|].
  assert (path_is_file q w = (Ret (leads_to_file (w_fs w) q), w)) as Hq by done.
  cbn [filter_m List.filter].
  erewrite bind_ret by exact Hq. erewrite bind_ret by exact IH.
  by destruct (leads_to_file (w_fs w) q).
Qed.

Lemma in_children fs d q :
  In q (Fs.children fs d) <-> exists nm, q = d ++ [nm] /\ is_Some (fs !! q).
Proof.
  unfold Fs.children. rewrite <- list_elem_of_In, list_elem_of_filter,
    list_elem_of_In, in_map_iff. split.
  - intros [[Hne Hd] ([q' x] & Hq & Hin)]. cbn [fst] in Hq. subst q'.
    apply list_elem_of_In, elem_of_map_to_list in Hin.
    exists (name q). split; [|eauto]. rewrite <- Hd. symmetry.
    by apply removelast_name.
  - intros (nm & -> & [x Hx]). split.
    + split; [by destruct d|]. by rewrite removelast_last.
    + exists (d ++ [nm], x). split; [done|].
      by apply list_elem_of_In, elem_of_map_to_list.
Qed.

(** X7: [list_files] names exactly the entries of the sandbox directory that
    are regular files or links that lead to one, so no directory; without
    any it says that the workspace is empty.  It changes nothing. *)
Theorem list_files_lists_regular_files (w : world) :
  Fs.realpath (w_fs w) T = Some T ->
  w_fs w !! T = Some Dir ->
  exists files,
    list_files T w
    = (Ret match files with
           | [] => "The workspace is empty."
           | _ => "Files available:" +:+ PyStr.nl
                    +:+ PyStr.join PyStr.nl (map (fun f => "- " +:+ f) files)
           end, w)
    /\ forall nm,
         In nm files
         <-> is_Some (w_fs w !! (T ++ [nm]))
             /\ exists data, Fs.stat (w_fs w) (T ++ [nm]) = Some (File data).
Proof.
  intros HT Hdir. pose proof (realpath_result_canonical _ _ _ HT) as Hcan.
  exists (map name (List.filter (leads_to_file (w_fs w)) (Fs.children (w_fs w) T))).
  split.
  - unfold list_files. erewrite try_ret; [reflexivity|].
    erewrite bind_ret.
    2:{ cbn [path_iterdir MemPlatform]. unfold Mem.iterdir.
        by rewrite stat_canonical, Hdir, HT. }
    erewrite bind_ret by apply filter_m_is_file.
    by destruct (map name _).
  - intros nm. rewrite in_map_iff. split.
    + intros (q & <- & Hq). apply filter_In in Hq as [Hq Hfile].
      apply in_children in Hq as (nm & -> & Hsome).
      unfold name. rewrite last_last. split; [done|].
      unfold leads_to_file in Hfile.
      destruct (Fs.stat (w_fs w) (T ++ [nm])) as [[data| |]|]; try done. eauto.
    + intros (Hsome & data & Hstat). exists (T ++ [nm]). split.
      * unfold name. by rewrite last_last.
      * apply filter_In. split; [apply in_children; eauto|].
        unfold leads_to_file. by rewrite Hstat.
Qed.

Lemma get_safe_path_world f (w : world) : snd (_get_safe_path T f w) = w.
Proof.
  rewrite get_safe_path_unfold.
  destruct (Fs.realpath _ _) as [q|]; [|done]. by destruct (PyStr.startswith _ _).
Qed.

Lemma read_pdf_world p (w : world) : snd (_read_pdf p w) = w.
Proof.
  unfold _read_pdf, try_, bind. cbn [pdf_page_texts MemPlatform].
  unfold Mem.pdf_pages.
  destruct pdf_import as [e|];
    [|destruct (Fs.read_bytes (w_fs w) p) as [data|e];
      [destruct (pdf_extract data) as [pages|e]; [done|]|]].
  all: cbn [find_handler].
  all: destruct (isinstance e ImportError); [done|].
  all: by rewrite isinstance_Exception.
Qed.

Lemma read_docx_world p (w : world) : snd (_read_docx p w) = w.
Proof.
  unfold _read_docx, try_, bind. cbn [docx_paragraph_texts MemPlatform].
  unfold Mem.docx_paragraphs.
  destruct docx_import as [e|];
    [|destruct (Fs.read_bytes (w_fs w) p) as [data|e];
      [destruct (docx_extract data) as [pages|e]; [done|]|]].
  all: cbn [find_handler].
  all: destruct (isinstance e ImportError); [done|].
  all: by rewrite isinstance_Exception.
Qed.

(** X8: [read_file] and [list_files] leave the world as it is, whatever they
    are given and whatever they answer. *)
Theorem reading_changes_nothing f (w : world) :
  snd (read_file T f w) = w /\ snd (list_files T w) = w.
Proof.
  split.
  - unfold read_file, try_ at 1, bind at 1.
    pose proof (get_safe_path_world f w) as Hw.
    destruct (_get_safe_path (P := MemPlatform) T f w) as [[p|e] w1];
      cbn [snd] in Hw; subst w1.
    + unfold bind at 1. cbn [path_exists MemPlatform]. unfold Mem.exists_.
      destruct (negb _); [done|].
      destruct (String.eqb _ ".pdf").
      { pose proof (read_pdf_world p w). by destruct (_read_pdf (P := MemPlatform) p w) as [[?|?] ?]; subst;
          cbn [find_handler]; rewrite ?isinstance_Exception. }
      destruct (String.eqb _ ".docx").
      { pose proof (read_docx_world p w). by destruct (_read_docx (P := MemPlatform) p w) as [[?|?] ?]; subst;
          cbn [find_handler]; rewrite ?isinstance_Exception. }
      unfold try_. cbn [open_read MemPlatform]. unfold Mem.read_text.
      destruct (Fs.read_bytes (w_fs w) p) as [data|e].
      * destruct (Utf8.valid data); [done|]. cbn [find_handler].
        by cbn.
      * cbn [find_handler].
        destruct (isinstance e UnicodeDecodeError); [done|].
        by rewrite isinstance_Exception.
    + cbn [find_handler]. by rewrite isinstance_Exception.
  - unfold list_files, try_, bind. cbn [path_iterdir MemPlatform]. unfold Mem.iterdir.
    destruct (Fs.stat (w_fs w) T) as [[| |]|]; try done.
    destruct (Fs.realpath (w_fs w) T) as [q|]; [|done].
    rewrite filter_m_is_file. by destruct (map name _).
Qed.

End Listing.

(** ** PDF and Word files *)

Section Documents.
Context {E : SqlEngine} {D : DocReaders}.
(** [T] stands for [TARGET_FOLDER]. *)
Variable T : path.

Lemma str_app_assoc (a b c : string) : (a +:+ b) +:+ c = a +:+ b +:+ c.
Proof. induction a as [|x a IH]; [done|]. rewrite !app_cons. by rewrite IH. Qed.

Lemma str_app_nil_r (a : string) : a +:+ "" = a.
Proof. induction a as [|x a IH]; [done|]. rewrite app_cons. by rewrite IH. Qed.

(** The loop of [_read_pdf] gives the texts of the pages in order, each
    followed by a newline. *)
Lemma page_loop pages : forall text,
  fold_left (fun text page => text +:+ page +:+ PyStr.nl) pages text
  = text +:+ PyStr.join "" (map (fun page => page +:+ PyStr.nl) pages).
Proof.
  induction pages as [|a [|b r] IH]; intros text.
  - by rewrite str_app_nil_r.
  - reflexivity.
  - change (fold_left _ (a :: b :: r) text)
      with (fold_left (fun text page => text +:+ page +:+ PyStr.nl) (b :: r)
              (text +:+ a +:+ PyStr.nl)).
    rewrite IH.
    change (PyStr.join "" (map _ (a :: b :: r)))
      with ((a +:+ PyStr.nl) +:+ "" +:+
              PyStr.join "" (map (fun page => page +:+ PyStr.nl) (b :: r))).
    rewrite app_nil_l. by rewrite !str_app_assoc.
Qed.

(** X9: [read_file] on a regular file whose suffix is .pdf in any case gives
    the texts of its pages in order, each followed by a newline, whether
    or not the bytes are UTF-8.  Where [pypdf] cannot be imported it gives
    the not-installed message, and for any other failure of the reader the
    message of that failure after ["Error reading PDF: "]. *)
Theorem read_file_pdf f (w : world) p data :
  _get_safe_path T f w = (Ret p, w) ->
  w_fs w !! p = Some (File data) ->
  PyStr.lower (suffix p) = ".pdf" ->
  read_file T f w
  = (Ret match pdf_texts data with
         | Ret pages => PyStr.join "" (map (fun page => page +:+ PyStr.nl) pages)
         | Raise e =>
             if isinstance e ImportError then "Error: 'pypdf' not installed."
             else "Error reading PDF: " +:+ exn_str e
         end, w).
Proof.
  intros Hsafe Hfile Hsuf. pose proof (safe_path_canonical T _ _ _ _ Hsafe) as Hcan.
  unfold read_file. erewrite try_ret; [reflexivity|].
  erewrite bind_ret by exact Hsafe.
  erewrite bind_ret by (by apply exists_resolved).
  rewrite Hfile, bool_decide_eq_true_2 by eauto. cbn [negb].
  rewrite Hsuf. change (String.eqb ".pdf" ".pdf") with true. cbn iota.
  unfold _read_pdf, try_, bind. cbn [pdf_page_texts MemPlatform].
  unfold Mem.pdf_pages, pdf_texts.
  destruct pdf_import as [e|];
    [|rewrite read_bytes_resolved, Hfile by done;
      destruct (pdf_extract data) as [pages|e];
      [unfold ret; by rewrite page_loop, app_nil_l|]].
  all: cbn [find_handler]; destruct (isinstance e ImportError); [done|].
  all: by rewrite isinstance_Exception.
Qed.

(** X10: [read_file] on a regular file whose suffix is .docx in any case gives
    the texts of its paragraphs, one per line, or the message of the
    reader's failure. *)
Theorem read_file_docx f (w : world) p data :
  _get_safe_path T f w = (Ret p, w) ->
  w_fs w !! p = Some (File data) ->
  PyStr.lower (suffix p) = ".docx" ->
  read_file T f w
  = (Ret match docx_texts data with
         | Ret paras => PyStr.join PyStr.nl paras
         | Raise e =>
             if isinstance e ImportError
             then "Error: 'python-docx' not installed."
             else "Error reading DOCX: " +:+ exn_str e
         end, w).
Proof.
  intros Hsafe Hfile Hsuf. pose proof (safe_path_canonical T _ _ _ _ Hsafe) as Hcan.
  unfold read_file. erewrite try_ret; [reflexivity|].
  erewrite bind_ret by exact Hsafe.
  erewrite bind_ret by (by apply exists_resolved).
  rewrite Hfile, bool_decide_eq_true_2 by eauto. cbn [negb].
  rewrite Hsuf. change (String.eqb ".docx" ".pdf") with false.
  change (String.eqb ".docx" ".docx") with true. cbn iota.
  unfold _read_docx, try_, bind. cbn [docx_paragraph_texts MemPlatform].
  unfold Mem.docx_paragraphs, docx_texts.
  destruct docx_import as [e|];
    [|rewrite read_bytes_resolved, Hfile by done;
      destruct (docx_extract data) as [paras|e]; [done|]].
  all: cbn [find_handler]; destruct (isinstance e ImportError); [done|].
  all: by rewrite isinstance_Exception.
Qed.

End Documents.

(** ** Sequences of calls *)

Section Sequences.
Context {E : SqlEngine} {D : DocReaders}.
(** [T] stands for [TARGET_FOLDER]. *)
Variable T : path.

(** X11: two writes in a row: with mode ["w"] the second content alone stays,
    as if the first write had not been made; with mode ["a"] both
    contents follow what the file held, as one append of the two would
    leave them. *)
Theorem writes_compose f X Y (w : world) p data :
  _get_safe_path T f w = (Ret p, w) ->
  w_fs w !! p = Some (File data) ->
  PyStr.elem (PyStr.lower (suffix p)) guarded_suffixes = false ->
  snd (write_to_file T f Y "w" (snd (write_to_file T f X "w" w)))
  = snd (write_to_file T f Y "w" w)
  /\ w_fs (snd (write_to_file T f Y "w" w)) !! p = Some (File Y)
  /\ snd (write_to_file T f Y "a" (snd (write_to_file T f X "a" w)))
     = snd (write_to_file T f (X +:+ Y) "a" w)
  /\ w_fs (snd (write_to_file T f (X +:+ Y) "a" w)) !! p
     = Some (File (data +:+ X +:+ Y)).
Proof.
  intros Hsafe Hfile Hsuf.
  assert (regular_or_new (w_fs w) p) as Hreg by (left; eauto).
  assert (link_of (w_fs w) p = None) as Hlink by (by apply regular_or_new_link_of).
  assert ("w" <> "a") as Hwa by discriminate.
  rewrite !(write_overwrite T f _ "w" w p Hwa Hsafe Hreg Hsuf).
  rewrite !(write_append T f _ w p data Hsafe Hfile Hsuf). cbn [snd].
  set (w1 := Mem.with_fs w (<[p := File X]> (w_fs w))).
  set (w2 := Mem.with_fs w (<[p := File (data +:+ X)]> (w_fs w))).
  assert (_get_safe_path T f w1 = (Ret p, w1)) as Hsafe1
    by (eapply get_safe_path_after_write; [exact Hsafe|exact Hlink|done]).
  assert (_get_safe_path T f w2 = (Ret p, w2)) as Hsafe2
    by (eapply get_safe_path_after_write; [exact Hsafe|exact Hlink|done]).
  rewrite (write_overwrite T f Y "w" w1 p Hwa Hsafe1) by
    (done || (left; exists X; apply lookup_insert_eq)).
  rewrite (write_append T f Y w2 p (data +:+ X) Hsafe2) by
    (done || apply lookup_insert_eq).
  subst w1 w2. unfold Mem.with_fs. cbn [snd w_fs w_conns w_next].
  by rewrite !insert_insert_eq, !lookup_insert_eq, str_app_assoc.
Qed.

(** X12: making a database where nothing was and deleting it again leaves the
    file system as it was before the two calls. *)
Theorem create_then_delete f (w : world) p :
  PyStr.endswith f ".db" || PyStr.endswith f ".sqlite" = true ->
  _get_safe_path T f w = (Ret p, w) ->
  w_fs w !! p = None ->
  Fs.missing_parent (w_fs w) p p = None ->
  exists w1 w2,
    create_sql_db T f w = (Ret ("âœ… Created new database: " +:+ f), w1)
    /\ delete_file T f w1 = (Ret ("âœ… Successfully deleted " +:+ f), w2)
    /\ w_fs w2 = w_fs w.
Proof.
  intros Hext Hsafe Hnone Hpar.
  assert (p <> []) as Hne by (intros ->; discriminate Hpar).
  eexists _, _. split; [by apply create_sql_db_new|].
  split.
  - eapply (delete_file_regular T f _ p "").
    + eapply get_safe_path_after_write; [exact Hsafe| |reflexivity].
      unfold link_of. by rewrite Hnone.
    + done.
    + apply lookup_insert_eq.
  - cbn [w_fs Mem.with_fs]. by apply delete_insert_id.
Qed.

(** X13: a database that [create_sql_db] made reads as the empty text through
    [read_file], and [write_to_file] refuses to write to it, where the
    resolved path has the suffix .db or .sqlite. *)
Theorem created_database_reads_empty f content mode (w : world) p :
  PyStr.endswith f ".db" || PyStr.endswith f ".sqlite" = true ->
  _get_safe_path T f w = (Ret p, w) ->
  w_fs w !! p = None ->
  Fs.missing_parent (w_fs w) p p = None ->
  PyStr.lower (suffix p) = ".db" \/ PyStr.lower (suffix p) = ".sqlite" ->
  exists w1,
    create_sql_db T f w = (Ret ("âœ… Created new database: " +:+ f), w1)
    /\ read_file T f w1 = (Ret "", w1)
    /\ write_to_file T f content mode w1
       = (Ret "Error: Cannot write text directly to binary/database files.", w1).
Proof.
  intros Hext Hsafe Hnone Hpar Hsuf.
  eexists. split; [by apply create_sql_db_new|].
  match goal with |- read_file T f ?w1 = _ /\ _ =>
    assert (_get_safe_path T f w1 = (Ret p, w1)) as Hsafe1 end.
  { eapply get_safe_path_after_write; [exact Hsafe| |reflexivity].
    unfold link_of. by rewrite Hnone. }
  pose proof (safe_path_canonical T _ _ _ _ Hsafe1) as Hcan. split.
  - unfold read_file. erewrite try_ret; [reflexivity|].
    erewrite bind_ret by exact Hsafe1.
    erewrite bind_ret by (by apply exists_resolved).
    cbn [w_fs]. rewrite lookup_insert_eq, bool_decide_eq_true_2 by eauto.
    cbn [negb].
    assert (String.eqb (PyStr.lower (suffix p)) ".pdf" = false
            /\ String.eqb (PyStr.lower (suffix p)) ".docx" = false) as [-> ->]
      by (by destruct Hsuf as [-> | ->]).
    unfold try_. cbn [open_read MemPlatform]. unfold Mem.read_text.
    rewrite read_bytes_resolved by done. cbn [w_fs].
    by rewrite lookup_insert_eq.
  - apply (write_guarded T f content mode _ p Hsafe1).
    + cbn [w_fs]. rewrite lookup_insert_eq. eauto.
    + by destruct Hsuf as [-> | ->].
Qed.

Lemma hidden_name_suffix p e :
  name p = String PyStr.dot e ->
  PyStr.contains PyStr.dot e = false ->
  suffix p = "".
Proof.
  intros Hname He. unfold suffix. rewrite Hname.
  cbn [PyStr.after_last PyStr.contains String.length].
  rewrite He, Ascii.eqb_refl.
  replace (String.length e + 1 <? S (String.length e))%nat with false.
  - by rewrite andb_false_r.
  - symmetry. apply Nat.ltb_ge. lia.
Qed.

(** X14: a file whose name is a dot followed by a text without a dot, such as
    [.db] or [.pdf], has no suffix for [pathlib]: the guard of
    [write_to_file] does not apply to it, and its content is replaced. *)
Theorem hidden_name_is_not_guarded f content mode (w : world) p e data :
  mode <> "a" ->
  _get_safe_path T f w = (Ret p, w) ->
  name p = String PyStr.dot e ->
  PyStr.contains PyStr.dot e = false ->
  w_fs w !! p = Some (File data) ->
  write_to_file T f content mode w
  = (Ret ("âœ… Successfully wrote to " +:+ f),
     Mem.with_fs w (<[p := File content]> (w_fs w))).
Proof.
  intros Hmode Hsafe Hname He Hfile.
  apply (write_overwrite T f content mode w p Hmode Hsafe); [left; eauto|].
  by rewrite (hidden_name_suffix p e).
Qed.

End Sequences.

(** ** The schema report *)

Section Inspect.
Context {E : SqlEngine} {D : DocReaders}.
(** [T] stands for [TARGET_FOLDER]. *)
Variable T : path.

Lemma join_empty_cons a l : PyStr.join "" (a :: l) = a +:+ PyStr.join "" l.
Proof. destruct l; [by rewrite str_app_nil_r | done]. Qed.

Lemma fold_join {A} (g : A -> string) xs : forall acc,
  fold_left (fun rep x => rep +:+ g x) xs acc = acc +:+ PyStr.join "" (map g xs).
Proof.
  induction xs as [|x xs IH]; intros acc; [by rewrite str_app_nil_r|].
  cbn [fold_left map]. by rewrite IH, join_empty_cons, str_app_assoc.
Qed.

Lemma report_column_ok (w : world) rep col :
  (3 <= length col)%nat ->
  report_column rep col w = (Ret (rep +:+ column_line col), w).
Proof.
  intros Hlen. unfold report_column, tuple_get, bind.
  rewrite (nth_error_nth' col VNull) by lia.
  rewrite (nth_error_nth' col VNull) by lia. reflexivity.
Qed.

Lemma for_each_columns (w : world) cols : forall rep,
  Forall (fun col => (3 <= length col)%nat) cols ->
  for_each cols rep report_column w
  = (Ret (rep +:+ PyStr.join "" (map column_line cols)), w).
Proof.
  induction cols as [|col cols IH]; intros rep Hall.
  - cbn [for_each map]. by rewrite str_app_nil_r.
  - inversion Hall as [|? ? Hcol Hrest]; subst. cbn [for_each map].
    erewrite bind_ret by (by apply report_column_ok).
    by rewrite IH, join_empty_cons, str_app_assoc.
Qed.

Lemma execute_read_only p data h rows (w0 w : world) statement r :
  w_fs w0 !! p = Some (File data) ->
  at_work p data h rows w0 w ->
  sqlite_step data statement = ExecOk r ->
  ex_image r = data ->
  exists w1,
    cursor_execute (Platform := MemPlatform) h statement w = (Ret tt, w1)
    /\ at_work p data h (ex_rows r) w0 w1.
Proof.
  intros Hfile (Hfs & Hnext & st & Hconns & Hp & Hview & _) Hstep Himage.
  cbn [cursor_execute MemPlatform]. unfold Mem.execute.
  rewrite Hconns, lookup_insert_eq, Hview, Hstep. eexists. split; [reflexivity|].
  unfold at_work, Mem.with_conn, Mem.with_fs. cbn [w_fs w_conns w_next].
  split; [|split; [done|]].
  - destruct (_ && _); [|done].
    rewrite Hp, Himage, Hfs. by apply insert_id.
  - eexists. rewrite Hconns, insert_insert_eq. split; [reflexivity|].
    cbn [c_path c_view c_rows]. done.
Qed.

Lemma fetchall_at_work p data h rows (w0 w : world) :
  at_work p data h rows w0 w ->
  exists w1,
    cursor_fetchall (Platform := MemPlatform) h w = (Ret rows, w1)
    /\ at_work p data h [] w0 w1.
Proof.
  intros (Hfs & Hnext & st & Hconns & Hp & Hview & Hrows).
  cbn [cursor_fetchall MemPlatform]. unfold Mem.fetchall.
  rewrite Hconns, lookup_insert_eq, Hrows. eexists. split; [reflexivity|].
  unfold at_work, Mem.with_conn. cbn [w_fs w_conns w_next].
  split; [done|split; [done|]]. eexists. rewrite Hconns, insert_insert_eq.
  split; [reflexivity|]. done.
Qed.

Lemma close_at_work p data h rows (w0 w : world) :
  at_work p data h rows w0 w ->
  conn_close (Platform := MemPlatform) h w
  = (Ret tt, mk_world (w_fs w0) (delete h (w_conns w0)) (w_next w0)).
Proof.
  intros (Hfs & Hnext & st & Hconns & _).
  cbn [conn_close MemPlatform]. unfold Mem.close.
  by rewrite Hfs, Hnext, Hconns, delete_insert_eq.
Qed.

Section Tables.
Variables (p : path) (data : string) (h : nat) (w0 : world).
Variable columns : string -> list (list sqlval).
Hypothesis Hfile : w_fs w0 !! p = Some (File data).

Lemma report_table_ok rows (w : world) rep table :
  at_work p data h rows w0 w ->
  describes data columns table ->
  exists w1,
    report_table (P := MemPlatform) h rep [VText table] w
    = (Ret (rep +:+ table_block table (columns table)), w1)
    /\ at_work p data h [] w0 w1.
Proof.
  intros Hw (r & Hstep & Himage & Hrows & Hall).
  destruct (execute_read_only p data h rows w0 w _ r Hfile Hw Hstep Himage)
    as (w1 & Hexec & Hw1).
  destruct (fetchall_at_work p data h _ w0 w1 Hw1) as (w2 & Hfetch & Hw2).
  exists w2. split; [|done]. unfold report_table, tuple_get.
  cbn [nth_error]. unfold bind at 1, ret at 1. cbn [PyRepr.str].
  erewrite bind_ret by exact Hexec.
  erewrite bind_ret by exact Hfetch.
  rewrite Hrows, for_each_columns by done. unfold table_block.
  by rewrite !str_app_assoc.
Qed.

Lemma for_each_tables tables : forall rows (w : world) rep,
  at_work p data h rows w0 w ->
  Forall (describes data columns) tables ->
  exists w1,
    for_each (map (fun table => [VText table]) tables) rep
      (report_table (P := MemPlatform) h) w
    = (Ret (rep +:+ PyStr.join ""
              (map (fun table => table_block table (columns table)) tables)), w1)
    /\ at_work p data h (match tables with [] => rows | _ => [] end) w0 w1.
Proof.
  induction tables as [|table tables IH]; intros rows w rep Hw Hall.
  - exists w. cbn [for_each map]. by rewrite str_app_nil_r.
  - inversion Hall as [|? ? Htable Hrest]; subst. cbn [for_each map].
    destruct (report_table_ok rows w rep table Hw Htable) as (w1 & Hrun & Hw1).
    destruct (IH [] w1 (rep +:+ table_block table (columns table)) Hw1 Hrest)
      as (w2 & Hloop & Hw2).
    exists w2. split.
    + erewrite bind_ret by exact Hrun. rewrite Hloop.
      by rewrite join_empty_cons, str_app_assoc.
    + by destruct tables.
Qed.

End Tables.

(** X15: [inspect_sql_db] on a database file with tables: the report is the
    heading, then for each table, in the order of the catalogue, its name,
    a rule, and one line per column with its name and declared type, in
    the order [PRAGMA table_info] gives them.  The connection is closed and
    the file is as before. *)
Theorem inspect_sql_db_report f (w : world) p data tables columns r :
  _get_safe_path T f w = (Ret p, w) ->
  w_fs w !! p = Some (File data) ->
  sqlite_step data catalog_query = ExecOk r ->
  ex_image r = data ->
  ex_rows r = map (fun table => [VText table]) tables ->
  tables <> [] ->
  Forall (describes data columns) tables ->
  inspect_sql_db T f w
  = (Ret ("Schema for " +:+ f +:+ ":" +:+ PyStr.nl
            +:+ PyStr.join ""
                  (map (fun table => table_block table (columns table)) tables)),
     mk_world (w_fs w) (delete (w_next w) (w_conns w)) (S (w_next w))).
Proof.
  intros Hsafe Hfile Hstep Himage Hrows Hne Hall.
  pose proof (safe_path_canonical T _ _ _ _ Hsafe) as Hcan.
  set (h := w_next w).
  set (w0 := mk_world (w_fs w) (w_conns w) (S h)).
  assert (at_work p data h [] w0 (snd (Mem.open_conn w p data))) as Hw.
  { unfold at_work, Mem.open_conn. cbn [snd w_fs w_conns w_next].
    split; [done|split; [done|]]. eexists. split; [reflexivity|done]. }
  destruct (execute_read_only p data h [] w0 _ catalog_query r Hfile Hw Hstep Himage)
    as (w1 & Hexec & Hw1).
  destruct (fetchall_at_work p data h _ w0 w1 Hw1) as (w2 & Hfetch & Hw2).
  destruct (for_each_tables p data h w0 columns Hfile tables [] w2
              ("Schema for " +:+ f +:+ ":" +:+ PyStr.nl) Hw2 Hall)
    as (w3 & Hloop & Hw3).
  unfold inspect_sql_db. erewrite try_ret; [reflexivity|].
  erewrite bind_ret by exact Hsafe.
  erewrite bind_ret by (by apply exists_resolved).
  rewrite Hfile, bool_decide_eq_true_2 by eauto. cbn [negb].
  erewrite bind_ret by (by apply connect_file).
  erewrite bind_ret.
  2:{ cbn [conn_cursor MemPlatform]. unfold Mem.cursor, Mem.open_conn.
      cbn [w_conns]. by rewrite lookup_insert_eq. }
  erewrite bind_ret by exact Hexec.
  erewrite bind_ret by exact Hfetch.
  rewrite Hrows. destruct tables as [|table tables]; [done|].
  cbn [map]. cbn [map] in Hloop.
  erewrite bind_ret by exact Hloop.
  erewrite bind_ret by (by eapply close_at_work).
  by rewrite !str_app_assoc.
Qed.

(** X16: [inspect_sql_db] on a database file without a table says that the
    database is empty, closes the connection and leaves the file as it is;
    where the catalogue cannot be read, as for a file that is no database,
    the answer is the message of SQLite after ["Error: "]. *)
Theorem inspect_sql_db_without_tables f (w : world) p data :
  _get_safe_path T f w = (Ret p, w) ->
  w_fs w !! p = Some (File data) ->
  (forall r,
     sqlite_step data catalog_query = ExecOk r ->
     ex_image r = data ->
     ex_rows r = [] ->
     inspect_sql_db T f w
     = (Ret "Database is empty.",
        mk_world (w_fs w) (delete (w_next w) (w_conns w)) (S (w_next w))))
  /\ (forall msg after,
        sqlite_step data catalog_query = ExecError msg after ->
        fst (inspect_sql_db T f w) = Ret ("Error: " +:+ msg)).
Proof.
  intros Hsafe Hfile.
  pose proof (safe_path_canonical T _ _ _ _ Hsafe) as Hcan.
  set (h := w_next w).
  set (w0 := mk_world (w_fs w) (w_conns w) (S h)).
  assert (at_work p data h [] w0 (snd (Mem.open_conn w p data))) as Hw.
  { unfold at_work, Mem.open_conn. cbn [snd w_fs w_conns w_next].
    split; [done|split; [done|]]. eexists. split; [reflexivity|done]. }
  split.
  - intros r Hstep Himage Hrows.
    destruct (execute_read_only p data h [] w0 _ catalog_query r Hfile Hw Hstep
                Himage) as (w1 & Hexec & Hw1).
    destruct (fetchall_at_work p data h _ w0 w1 Hw1) as (w2 & Hfetch & Hw2).
    unfold inspect_sql_db. erewrite try_ret; [reflexivity|].
    erewrite bind_ret by exact Hsafe.
    erewrite bind_ret by (by apply exists_resolved).
    rewrite Hfile, bool_decide_eq_true_2 by eauto. cbn [negb].
    erewrite bind_ret by (by apply connect_file).
    erewrite bind_ret.
    2:{ cbn [conn_cursor MemPlatform]. unfold Mem.cursor, Mem.open_conn.
        cbn [w_conns]. by rewrite lookup_insert_eq. }
    erewrite bind_ret by exact Hexec.
    erewrite bind_ret by exact Hfetch.
    rewrite Hrows.
    by erewrite bind_ret by (by eapply close_at_work).
  - intros msg after Hstep. unfold inspect_sql_db.
    erewrite (try_raise_Exception _ _ w (mk_exn SqliteError msg)); [reflexivity|].
    erewrite bind_ret by exact Hsafe.
    erewrite bind_ret by (by apply exists_resolved).
    rewrite Hfile, bool_decide_eq_true_2 by eauto. cbn [negb].
    erewrite bind_ret by (by apply connect_file).
    erewrite bind_ret.
    2:{ cbn [conn_cursor MemPlatform]. unfold Mem.cursor, Mem.open_conn.
        cbn [w_conns]. by rewrite lookup_insert_eq. }
    erewrite bind_raise; [reflexivity|].
    cbn [cursor_execute MemPlatform]. unfold Mem.execute, Mem.open_conn.
    cbn [w_conns]. rewrite lookup_insert_eq. cbn [c_view].
    unfold catalog_query in Hstep. by rewrite Hstep.
Qed.

End Inspect.

(** ** Rows as dictionaries *)

Section RowDictionary.
Context {V : Type}.
Implicit Types (d ps : list (string * V)) (k : string) (v : V).

Lemma dict_get_set k k' v d :
  dict_get k (PyRepr.dict_set k' v d)
  = if String.eqb k k' then Some v else dict_get k d.
Proof.
  induction d as [|[k1 v1] d IH]; cbn [PyRepr.dict_set dict_get]; [done|].
  destruct (String.eqb_spec k' k1) as [->|Hne]; cbn [dict_get].
  - by destruct (String.eqb k k1).
  - rewrite IH. destruct (String.eqb_spec k k1) as [->|]; [|done].
    destruct (String.eqb_spec k1 k') as [->|]; done.
Qed.

Lemma dict_get_app k d1 d2 :
  dict_get k (d1 ++ d2)
  = match dict_get k d1 with Some v => Some v | None => dict_get k d2 end.
Proof.
  induction d1 as [|[k1 v1] d1 IH]; cbn [app dict_get]; [done|].
  by destruct (String.eqb k k1).
Qed.

Lemma dict_get_fold k ps : forall d,
  dict_get k (fold_left (fun d kv => PyRepr.dict_set (fst kv) (snd kv) d) ps d)
  = match dict_get k (rev ps) with Some v => Some v | None => dict_get k d end.
Proof.
  induction ps as [|[k1 v1] ps IH]; intros d; cbn [fold_left rev]; [done|].
  rewrite IH, dict_get_app, dict_get_set. cbn [dict_get fst snd].
  destruct (dict_get k (rev ps)); [done|]. by destruct (String.eqb k k1).
Qed.

Lemma dict_set_keys k v d :
  forall x, In x (map fst (PyRepr.dict_set k v d)) <-> x = k \/ In x (map fst d).
Proof.
  induction d as [|[k1 v1] d IH]; intros x; cbn [PyRepr.dict_set map fst In].
  - intuition congruence.
  - destruct (String.eqb_spec k k1) as [->|Hne]; cbn [map fst In].
    + intuition congruence.
    + rewrite IH. intuition congruence.
Qed.

Lemma dict_set_NoDup k v d :
  List.NoDup (map fst d) -> List.NoDup (map fst (PyRepr.dict_set k v d)).
Proof.
  induction d as [|[k1 v1] d IH]; cbn [PyRepr.dict_set map fst]; intros Hd.
  - constructor; [by intros []|constructor].
  - inversion Hd as [|? ? Hnin Hrest]; subst.
    destruct (String.eqb_spec k k1) as [->|Hne]; cbn [map fst].
    + by constructor.
    + constructor; [|by apply IH]. rewrite dict_set_keys.
      intros [Heq|Hin]; [by apply Hne|by apply Hnin].
Qed.

Lemma dict_set_length k v d :
  (length (PyRepr.dict_set k v d) <= S (length d))%nat.
Proof.
  induction d as [|[k1 v1] d IH]; cbn [PyRepr.dict_set length]; [lia|].
  destruct (String.eqb k k1); cbn [length]; lia.
Qed.

Lemma dict_set_fresh k v d :
  ~ In k (map fst d) -> PyRepr.dict_set k v d = d ++ [(k, v)].
Proof.
  induction d as [|[k1 v1] d IH]; cbn [PyRepr.dict_set map fst In app]; [done|].
  intros Hnin. destruct (String.eqb_spec k k1) as [->|Hne]; [tauto|].
  rewrite IH; [done|tauto].
Qed.

Lemma fold_dict_facts ps : forall d,
  List.NoDup (map fst d) ->
  let d' := fold_left (fun d kv => PyRepr.dict_set (fst kv) (snd kv) d) ps d in
  List.NoDup (map fst d') /\ (length d' <= length d + length ps)%nat.
Proof.
  induction ps as [|[k1 v1] ps IH]; intros d Hd; cbn [fold_left length fst snd].
  - split; [done|lia].
  - destruct (IH (PyRepr.dict_set k1 v1 d)) as [H1 H2];
      [by apply dict_set_NoDup|].
    split; [done|]. pose proof (dict_set_length k1 v1 d). cbn zeta in H2. lia.
Qed.

Lemma fold_dict_distinct ps : forall d,
  List.NoDup (map fst (d ++ ps)) ->
  fold_left (fun d kv => PyRepr.dict_set (fst kv) (snd kv) d) ps d = d ++ ps.
Proof.
  induction ps as [|[k1 v1] ps IH]; intros d Hd; cbn [fold_left fst snd].
  - by rewrite app_nil_r.
  - replace (d ++ (k1, v1) :: ps) with ((d ++ [(k1, v1)]) ++ ps) in *
      by (by rewrite <- app_assoc).
    rewrite dict_set_fresh; [by apply IH|].
    rewrite !map_app in Hd. apply NoDup_app_remove_r in Hd.
    cbn [map fst] in Hd. apply NoDup_remove_2 in Hd.
    by rewrite app_nil_r in Hd.
Qed.

Lemma zip_keys (cols : list string) (row : list V) :
  (length cols <= length row)%nat -> map fst (PyRepr.zip cols row) = cols.
Proof.
  revert row. induction cols as [|c cols IH]; intros [|x row] Hlen;
    cbn [PyRepr.zip map fst length] in *; try done; try lia.
  rewrite IH; [done|lia].
Qed.

Lemma zip_length (cols : list string) (row : list V) :
  (length (PyRepr.zip cols row) <= length cols)%nat.
Proof.
  revert row. induction cols as [|c cols IH]; intros [|x row];
    cbn [PyRepr.zip length]; try lia. specialize (IH row). lia.
Qed.

(** X17: the dictionary made of a row, [dict(zip(cols, row))]: no column name
    occurs twice in it; under a name it holds the value of the last column
    of that name, so the values of earlier columns of the same name are
    not shown; it has no more entries than there are columns; and with
    column names that are all different it holds every column with its
    value, in order. *)
Theorem row_dictionary (cols : list string) (row : list V) :
  List.NoDup (map fst (PyRepr.dict (PyRepr.zip cols row)))
  /\ (forall k,
        dict_get k (PyRepr.dict (PyRepr.zip cols row))
        = dict_get k (rev (PyRepr.zip cols row)))
  /\ (length (PyRepr.dict (PyRepr.zip cols row)) <= length cols)%nat
  /\ (List.NoDup cols -> length cols = length row ->
      PyRepr.dict (PyRepr.zip cols row) = PyRepr.zip cols row).
Proof.
  unfold PyRepr.dict. split; [|split; [|split]].
  - apply (fold_dict_facts _ []). constructor.
  - intros k. rewrite dict_get_fold. by destruct (dict_get k _).
  - destruct (fold_dict_facts (PyRepr.zip cols row) []) as [_ H]; [constructor|].
    pose proof (zip_length cols row). cbn [length] in H. cbn zeta in H. lia.
  - intros Hnd Hlen. apply (fold_dict_distinct _ []). cbn [app].
    rewrite zip_keys; [done|lia].
Qed.

End RowDictionary.

(** ** The further properties at the sample worlds *)

(** notes.txt is no link, and resolves below the root. *)
Lemma get_safe_path_inside_without_link_witness :
  inside Sample.root ["srv"; "workspace"; "notes.txt"].
Proof.
  apply (@get_safe_path_inside_without_link Sample.engine Sample.readers
           Sample.root "notes.txt" Sample.w Sample.w).
  - vm_compute. reflexivity.
  - intros t. vm_compute. discriminate.
  - vm_compute. reflexivity.
Defined.

(** ["a/.."] is denied. *)
Lemma parent_name_is_denied_witness :
  @read_file Sample.platform Sample.root "a/.." Sample.w
  = (Ret "Error: Access denied: a/.. is outside the allowed directory.",
     Sample.w).
Proof.
  refine (proj2 (@parent_name_is_denied Sample.engine Sample.readers Sample.root
                   "a/.." Sample.w _ _ _)).
  - vm_compute. reflexivity.
  - vm_compute. reflexivity.
  - discriminate.
Defined.

(** ["../../etc/passwd"] resolves as ["passwd"] does. *)
Lemma directory_part_is_discarded_witness :
  @_get_safe_path Sample.platform Sample.root "../../etc/passwd" Sample.w
  = (Ret ["srv"; "workspace"; "passwd"], Sample.w).
Proof.
  apply (proj2 (@directory_part_is_discarded Sample.platform Sample.root
                  "../../etc" "passwd" Sample.w ["srv"; "workspace"; "passwd"]
                  Sample.w eq_refl)).
  vm_compute. reflexivity.
Defined.

(** After the denial of [".."], [delete_file] does nothing. *)
Lemma denied_path_stops_every_tool_witness :
  @delete_file Sample.platform Sample.root ".." Sample.w
  = (Ret "Error deleting file: Access denied: .. is outside the allowed directory.",
     Sample.w).
Proof.
  refine (proj1 (proj2 (proj2
    (@denied_path_stops_every_tool Sample.platform Sample.root ".." Sample.w
       (mk_exn ValueError "Access denied: .. is outside the allowed directory.")
       Sample.w _)))).
  vm_compute. reflexivity.
Defined.

(** Deleting data.db, a database, and asking for it again. *)
Lemma delete_file_cases_witness :
  exists w',
    @delete_file Sample.platform Sample.root "data.db" Sample.w
    = (Ret "âœ… Successfully deleted data.db", w')
    /\ w_fs w' = delete ["srv"; "workspace"; "data.db"] Sample.fs
    /\ @delete_file Sample.platform Sample.root "data.db" w'
       = (Ret "Error: File 'data.db' not found.", w').
Proof.
  destruct (proj2 (@delete_file_cases Sample.engine Sample.readers Sample.root
                     "data.db" Sample.w ["srv"; "workspace"; "data.db"] eq_refl)
              "")
    as (w' & H1 & H2 & _ & H3).
  - discriminate.
  - vm_compute. reflexivity.
  - exists w'. split; [exact H1|]. split; [exact H2|].
    apply H3. vm_compute. reflexivity.
Defined.

(** blob.bin holds a byte that is no text. *)
Lemma read_file_binary_witness :
  @read_file Office.platform Office.root "blob.bin" Office.w
  = (Ret "Error: Binary file detected. Use 'inspect_sql_db' for databases.",
     Office.w).
Proof.
  apply (@read_file_binary Office.engine Office.readers Office.root "blob.bin"
           Office.w ["srv"; "workspace"; "blob.bin"] Office.not_text).
  - vm_compute. reflexivity.
  - vm_compute. reflexivity.
  - vm_compute. discriminate.
  - vm_compute. discriminate.
  - vm_compute. reflexivity.
Defined.

(** The listing of the second world names memo.docx and not the directory
    sub. *)
Lemma list_files_lists_regular_files_witness :
  exists files,
    fst (@list_files Office.platform Office.root Office.w)
    = Ret ("Files available:" +:+ PyStr.nl
             +:+ PyStr.join PyStr.nl (map (fun f => "- " +:+ f) files))
    /\ In "memo.docx" files /\ ~ In "sub" files.
Proof.
  destruct (@list_files_lists_regular_files Office.engine Office.readers
              Office.root Office.w) as (files & Hlist & Hin).
  - vm_compute. reflexivity.
  - vm_compute. reflexivity.
  - exists files.
    assert (In "memo.docx" files) as Hmemo.
    { apply Hin. split.
      - exists (File "PK"). vm_compute. reflexivity.
      - exists "PK". vm_compute. reflexivity. }
    split; [|split; [exact Hmemo|]].
    + unfold Office.platform. rewrite Hlist. cbn [fst].
      destruct files; [destruct Hmemo|reflexivity].
    + intros Hsub. apply Hin in Hsub as (_ & data & Hstat).
      vm_compute in Hstat. discriminate Hstat.
Defined.

(** report.pdf without [pypdf]: the import fails with a subclass of
    [ImportError]. *)
Lemma read_file_pdf_witness :
  @read_file Sample.platform Sample.root "report.pdf" Sample.w
  = (Ret "Error: 'pypdf' not installed.", Sample.w).
Proof.
  apply (@read_file_pdf Sample.engine Sample.readers Sample.root "report.pdf"
           Sample.w ["srv"; "workspace"; "report.pdf"] "%PDF-1.7").
  - vm_compute. reflexivity.
  - vm_compute. reflexivity.
  - vm_compute. reflexivity.
Defined.

(** memo.docx with its two paragraphs. *)
Lemma read_file_docx_witness :
  @read_file Office.platform Office.root "memo.docx" Office.w
  = (Ret ("Title" +:+ PyStr.nl +:+ "Body"), Office.w).
Proof.
  apply (@read_file_docx Office.engine Office.readers Office.root "memo.docx"
           Office.w ["srv"; "workspace"; "memo.docx"] "PK").
  - vm_compute. reflexivity.
  - vm_compute. reflexivity.
  - vm_compute. reflexivity.
Defined.

(** Two appends to notes.txt. *)
Lemma writes_compose_witness :
  w_fs (snd (@write_to_file Sample.platform Sample.root "notes.txt" "XY" "a"
               Sample.w))
    !! ["srv"; "workspace"; "notes.txt"]
  = Some (File "helloXY").
Proof.
  refine (proj2 (proj2 (proj2
    (@writes_compose Sample.engine Sample.readers Sample.root "notes.txt"
       "X" "Y" Sample.w ["srv"; "workspace"; "notes.txt"] "hello" _ _ _)))).
  - vm_compute. reflexivity.
  - vm_compute. reflexivity.
  - vm_compute. reflexivity.
Defined.

(** Making and deleting tmp.db. *)
Lemma create_then_delete_witness :
  exists w1 w2,
    @create_sql_db Sample.platform Sample.root "tmp.db" Sample.w
    = (Ret "âœ… Created new database: tmp.db", w1)
    /\ @delete_file Sample.platform Sample.root "tmp.db" w1
       = (Ret "âœ… Successfully deleted tmp.db", w2)
    /\ w_fs w2 = Sample.fs.
Proof.
  apply (@create_then_delete Sample.engine Sample.readers Sample.root "tmp.db"
           Sample.w ["srv"; "workspace"; "tmp.db"]).
  - vm_compute. reflexivity.
  - vm_compute. reflexivity.
  - vm_compute. reflexivity.
  - vm_compute. reflexivity.
Defined.

(** tmp.db, once made, reads as the empty text and is not written. *)
Lemma created_database_reads_empty_witness :
  exists w1,
    @create_sql_db Sample.platform Sample.root "tmp.db" Sample.w
    = (Ret "âœ… Created new database: tmp.db", w1)
    /\ @read_file Sample.platform Sample.root "tmp.db" w1 = (Ret "", w1)
    /\ @write_to_file Sample.platform Sample.root "tmp.db" "text" "w" w1
       = (Ret "Error: Cannot write text directly to binary/database files.", w1).
Proof.
  apply (@created_database_reads_empty Sample.engine Sample.readers Sample.root
           "tmp.db" "text" "w" Sample.w ["srv"; "workspace"; "tmp.db"]).
  - vm_compute. reflexivity.
  - vm_compute. reflexivity.
  - vm_compute. reflexivity.
  - vm_compute. reflexivity.
  - left. vm_compute. reflexivity.
Defined.

(** The database named [.db] is overwritten with text. *)
Lemma hidden_name_is_not_guarded_witness :
  @write_to_file Office.platform Office.root ".db" "text" "w" Office.w
  = (Ret "âœ… Successfully wrote to .db",
     Mem.with_fs Office.w (<[["srv"; "workspace"; ".db"] := File "text"]> Office.fs)).
Proof.
  apply (@hidden_name_is_not_guarded Office.engine Office.readers Office.root
           ".db" "text" "w" Office.w ["srv"; "workspace"; ".db"] "db" "").
  - discriminate.
  - vm_compute. reflexivity.
  - vm_compute. reflexivity.
  - vm_compute. reflexivity.
  - vm_compute. reflexivity.
Defined.

(** The report for the table [t(id INTEGER, name TEXT)]. *)
Lemma inspect_sql_db_report_witness :
  fst (@inspect_sql_db Office.platform Office.root "app.db" Office.w)
  = Ret ("Schema for app.db:" +:+ PyStr.nl
           +:+ PyStr.nl +:+ "Table: t" +:+ PyStr.nl
           +:+ "--------------------" +:+ PyStr.nl
           +:+ "  - id (INTEGER)" +:+ PyStr.nl
           +:+ "  - name (TEXT)" +:+ PyStr.nl).
Proof.
  unfold Office.platform.
  rewrite (@inspect_sql_db_report Office.engine Office.readers Office.root
             "app.db" Office.w ["srv"; "workspace"; "app.db"] "" ["t"]
             Office.columns
             (mk_exec_ok "" true (Some ["name"]) [[VText "t"]] 0)).
  - vm_compute. reflexivity.
  - vm_compute. reflexivity.
  - vm_compute. reflexivity.
  - vm_compute. reflexivity.
  - reflexivity.
  - reflexivity.
  - discriminate.
  - constructor; [|constructor]. eexists. split; [vm_compute; reflexivity|].
    split; [reflexivity|]. split; [reflexivity|].
    unfold Office.columns. repeat constructor.
Defined.

(** blank.db is a database without a table; notes.txt is no database. *)
Lemma inspect_sql_db_without_tables_witness :
  @inspect_sql_db Shop.platform Shop.root "blank.db" Shop.w
  = (Ret "Database is empty.",
     mk_world (w_fs Shop.w) (delete (w_next Shop.w) (w_conns Shop.w))
       (S (w_next Shop.w)))
  /\ fst (@inspect_sql_db Shop.platform Shop.root "notes.txt" Shop.w)
     = Ret "Error: file is not a database".
Proof.
  split.
  - refine (proj1 (@inspect_sql_db_without_tables Shop.engine Office.readers
                     Shop.root "blank.db" Shop.w
                     ["srv"; "workspace"; "blank.db"] "" _ _)
              (mk_exec_ok "" true (Some ["name"]) [] 0) _ _ _).
    + vm_compute. reflexivity.
    + vm_compute. reflexivity.
    + vm_compute. reflexivity.
    + reflexivity.
    + reflexivity.
  - refine (proj2 (@inspect_sql_db_without_tables Shop.engine Office.readers
                     Shop.root "notes.txt" Shop.w
                     ["srv"; "workspace"; "notes.txt"] "hello" _ _)
              "file is not a database" "hello" _).
    + vm_compute. reflexivity.
    + vm_compute. reflexivity.
    + vm_compute. reflexivity.
Defined.

(** Two columns of different names. *)
Lemma row_dictionary_witness :
  PyRepr.dict (PyRepr.zip ["id"; "name"] [VInt 1; VText "a"])
  = [("id", VInt 1); ("name", VText "a")].
Proof.
  apply (proj2 (proj2 (proj2
    (row_dictionary ["id"; "name"] [VInt 1; VText "a"])))).
  - constructor; [|constructor; [|constructor]].
    + intros [H|[]]. discriminate H.
    + intros [].
  - reflexivity.
Defined.
